(** * DOS data and DOS collections of ASE: a shallow embedding

    The development embeds the classes of [ase/spectrum/dosdata.py]
    ([DOSData], [GeneralDOSData], [RawDOSData], [GridDOSData]) and of
    [ase/dft/doscollection.py] ([DOSCollection], [RawDOSCollection],
    [GridDOSCollection]): construction, [copy], [+], [_sample],
    [sample_grid], [_almost_equals], indexing, iteration, [sample],
    [==], [sum_all], [total], [select], [select_not], [sum_by],
    [from_data] and [+] on collections.  Plotting and indexing by a
    slice are left out.

    Conventions.
    - A Python method [Cls.meth] is the Rocq function [Cls_meth]; the
      method name is kept literally, so [DOSData._sample] is
      [DOSData__sample] and [RawDOSData.__add__] is [RawDOSData___add__].
    - A Python [float] and every entry of a float [ndarray] is an IEEE
      binary64 number, Rocq's primitive [float]; a 1-D array is a
      [list float].
    - A raised exception is the [Raise] case of [result]; a call of
      [warnings.warn] appends to the log carried by [M].
    - A [dict] of strings is a [gmap string string].  Where the program
      shares one dict between several objects, the dict lives in a store
      and objects hold its location (section "Shared info dicts"). *)

From Stdlib Require Import ZArith Floats Ascii String OrdersEx.
From stdpp Require Import base option list gmap strings sorting.

Set Default Proof Using "Type".

(* ================================================================== *)
(** ** Exceptions, results, warnings *)
(* ================================================================== *)

(** The built-in exception classes the two modules raise.  None of the
    three is a subclass of another. *)
Inductive exn := TypeError | ValueError | IndexError.

#[global] Instance exn_eq_dec : EqDecision exn.
Proof. solve_decision. Defined.

Inductive result (A : Type) :=
| Ok (a : A)
| Raise (e : exn).
Arguments Ok {A} a.
Arguments Raise {A} e.

#[global] Instance result_ret : MRet result := fun A a => Ok a.
#[global] Instance result_bind : MBind result := fun A B f m =>
  match m with Ok a => f a | Raise e => Raise e end.
#[global] Instance result_fmap : FMap result := fun A B f m =>
  match m with Ok a => Ok (f a) | Raise e => Raise e end.

(** [isinstance(e, ValueError)] / [isinstance(e, TypeError)] for a raised
    exception [e]. *)
Definition is_ValueError (e : exn) : bool :=
  match e with ValueError => true | _ => false end.
Definition is_TypeError (e : exn) : bool :=
  match e with TypeError => true | _ => false end.

(** The one warning of the program ([GridDOSData._check_spacing]). *)
Inductive warning := SmallBroadeningWidth.

(** A computation that may call [warnings.warn] before it returns or
    raises: the warnings issued, in order, and the outcome. *)
Record M (A : Type) := mkM { warnings : list warning; outcome : result A }.
Arguments mkM {A} warnings outcome.
Arguments warnings {A} m.
Arguments outcome {A} m.

#[global] Instance M_ret : MRet M := fun A a => mkM [] (Ok a).
#[global] Instance M_bind : MBind M := fun A B f m =>
  match outcome m with
  | Ok a => mkM (warnings m ++ warnings (f a)) (outcome (f a))
  | Raise e => mkM (warnings m) (Raise e)
  end.
#[global] Instance M_fmap : FMap M := fun A B f m =>
  mkM (warnings m) (f <$> outcome m).

Definition lift {A} (r : result A) : M A := mkM [] r.
Definition warn (w : warning) : M unit := mkM [w] (Ok tt).

(* ================================================================== *)
(** ** Python and numpy primitives *)
(* ================================================================== *)

(** [seq[i]] for a Python list or a 1-D array and an [int] index:
    negative indices count from the end, out of range raises
    [IndexError]. *)
Definition py_index {A} (l : list A) (i : Z) : result A :=
  let n := Z.of_nat (length l) in
  let j := if (i <? 0)%Z then (i + n)%Z else i in
  if (j <? 0)%Z then Raise IndexError
  else match l !! Z.to_nat j with
       | Some x => Ok x
       | None => Raise IndexError
       end.

(** [min(a)] and [max(a)] over the entries of a 1-D array: the built-ins
    keep the first entry and replace it by a later one that compares
    strictly smaller (greater); the empty sequence raises [ValueError]. *)
Definition py_min (l : list float) : result float :=
  match l with
  | [] => Raise ValueError
  | x :: r => Ok (fold_left (fun m y => if PrimFloat.ltb y m then y else m) r x)
  end.
Definition py_max (l : list float) : result float :=
  match l with
  | [] => Raise ValueError
  | x :: r => Ok (fold_left (fun m y => if PrimFloat.ltb m y then y else m) r x)
  end.

(** ASCII part of [str.lower]. *)
Definition ascii_lower (c : ascii) : ascii :=
  let n := N_of_ascii c in
  if (65 <=? n)%N && (n <=? 90)%N then ascii_of_N (n + 32) else c.
Fixpoint str_lower (s : string) : string :=
  match s with
  | EmptyString => EmptyString
  | String c r => String (ascii_lower c) (str_lower r)
  end.

Definition float_of_Z (z : Z) : float := PrimFloat.of_uint63 (Uint63.of_Z z).
Definition float_of_nat (n : nat) : float := float_of_Z (Z.of_nat n).

(** [np.pi] *)
Definition np_pi : float := 0x1.921fb54442d18p+1%float.

(** Defaults of [np.isclose] / [np.allclose]. *)
Definition np_rtol : float := 0x1.4f8b588e368f1p-17%float.  (* 1e-05 *)
Definition np_atol : float := 0x1.5798ee2308c3ap-27%float.  (* 1e-08 *)

(** [np.isclose(a, b)] on two scalars: the tolerance test for two finite
    numbers, plain equality as soon as one is infinite or NaN. *)
Definition np_isclose (a b : float) : bool :=
  if PrimFloat.is_finite a && PrimFloat.is_finite b
  then PrimFloat.leb (PrimFloat.abs (a - b)) (np_atol + np_rtol * PrimFloat.abs b)
  else PrimFloat.eqb a b.

(** Broadcasting of two 1-D arrays against each other: equal lengths pair
    up, a length-1 array is stretched, anything else raises
    [ValueError]. *)
Definition np_broadcast {A} (a b : list A) : result (list (A * A)) :=
  if decide (length a = length b) then Ok (zip a b)
  else match a, b with
       | [x], _ => Ok (map (fun y => (x, y)) b)
       | _, [y] => Ok (map (fun x => (x, y)) a)
       | _, _ => Raise ValueError
       end.

(** [np.allclose(a, b)] on 1-D arrays. *)
Definition np_allclose (a b : list float) : result bool :=
  ps ← np_broadcast a b;
  Ok (forallb (fun p => np_isclose p.1 p.2) ps).

(** [a[-1] = x] on a list. *)
Definition set_last {A} (l : list A) (x : A) : list A :=
  match l with
  | [] => []
  | _ => <[pred (length l) := x]> l
  end.

(** [np.linspace(start, stop, num)] for scalar bounds, [endpoint=True]. *)
Definition np_linspace (start stop : float) (num : Z) : result (list float) :=
  if (num <? 0)%Z then Raise ValueError
  else
    let div := float_of_Z (num - 1) in
    let delta := (stop - start)%float in
    let y := map float_of_nat (seq 0 (Z.to_nat num)) in
    let y :=
      if (0 <? num - 1)%Z then
        let step := (delta / div)%float in
        if PrimFloat.eqb step 0%float
        then map (fun v => (v / div * delta)%float) y
        else map (fun v => (v * step)%float) y
      else map (fun v => (v * delta)%float) y in
    let y := map (fun v => (v + start)%float) y in
    Ok (if (1 <? num)%Z then set_last y stop else y).

(** An [ndarray] as [np.asarray] builds it from a list of equally long
    1-D arrays: with no row the result is the 1-D array of shape [(0,)],
    otherwise the 2-D array of the rows. *)
Inductive ndarray :=
| Array1 (a : list float)
| Array2 (rows : list (list float)).

Definition np_asarray (rows : list (list float)) : result ndarray :=
  match rows with
  | [] => Ok (Array1 [])
  | r :: rs =>
      if forallb (fun r' => bool_decide (length r' = length r)) rs
      then Ok (Array2 rows) else Raise ValueError
  end.

Definition ndim (a : ndarray) : nat :=
  match a with Array1 _ => 1 | Array2 _ => 2 end.

(* ================================================================== *)
(** ** dosdata.py: the data model *)
(* ================================================================== *)

(** [Info = Dict[str, str]] *)
Abbreviation Info := (gmap string string).

(** The two concrete classes of [DOSData]. *)
Inductive dos_class := RawDOSData | GridDOSData.

#[global] Instance dos_class_eq_dec : EqDecision dos_class.
Proof. solve_decision. Defined.

(** An object of class [RawDOSData] or [GridDOSData].  [_data] is the
    array with the two rows energies and weights; [info] is the dict the
    attribute is bound to, of type [I]: the dict itself ([I := Info])
    where only its contents matter, its location in the store where the
    identity of the dict matters. *)
Record DOSData (I : Type) := mkDOSData {
  class_of : dos_class;
  _data : list float * list float;
  info : I
}.
Arguments mkDOSData {I} class_of _data info.
Arguments class_of {I} d.
Arguments _data {I} d.
Arguments info {I} d.

(** The [info] argument of a constructor: left out ([None]), a dict, or
    an object of another type.  [InfoNone new] carries the empty dict
    [new] that the constructor creates in that case. *)
Inductive info_arg (I : Type) := InfoNone (new : I) | InfoDict (d : I) | InfoOther.
Arguments InfoNone {I} new.
Arguments InfoDict {I} d.
Arguments InfoOther {I}.

(** [DOSData.__init__]: the dict [self.info] is bound to.  A given dict
    is bound as it is, not copied. *)
Definition DOSData___init__ {I} (info : info_arg I) : result I :=
  match info with
  | InfoNone new => Ok new
  | InfoDict d => Ok d
  | InfoOther => Raise TypeError
  end.

(** [GeneralDOSData.__init__], for the class [cls] under construction. *)
Definition GeneralDOSData___init__ {I} (cls : dos_class)
    (energies weights : list float) (info : info_arg I) : result (DOSData I) :=
  i ← DOSData___init__ info;
  let n_entries := length energies in
  if decide (length weights ≠ n_entries) then Raise ValueError
  else Ok (mkDOSData cls (energies, weights) i).

Definition GeneralDOSData_get_energies {I} (self : DOSData I) : list float :=
  (_data self).1.
Definition GeneralDOSData_get_weights {I} (self : DOSData I) : list float :=
  (_data self).2.

(** [RawDOSData(energies, weights, info)]: the class inherits
    [GeneralDOSData.__init__]. *)
Definition RawDOSData___init__ {I}
    (energies weights : list float) (info : info_arg I) : result (DOSData I) :=
  GeneralDOSData___init__ RawDOSData energies weights info.

(** The test of [GridDOSData.__init__] on the energies:
    [np.allclose(energies,
                 np.linspace(energies[0], energies[-1], n_entries))] *)
Definition evenly_spaced (energies : list float) : result bool :=
  let n_entries := length energies in
  e0 ← py_index energies 0;
  e1 ← py_index energies (-1);
  grid ← np_linspace e0 e1 (Z.of_nat n_entries);
  np_allclose energies grid.

(** [GridDOSData.__init__] *)
Definition GridDOSData___init__ {I}
    (energies weights : list float) (info : info_arg I) : result (DOSData I) :=
  let n_entries := length energies in
  close ← evenly_spaced energies;
  if negb close then Raise ValueError
  else if decide (length weights ≠ n_entries) then Raise ValueError
  else GeneralDOSData___init__ GridDOSData energies weights info.

(** [type(self)(energies, weights, info=info)] *)
Definition DOSData_construct {I} (cls : dos_class)
    (energies weights : list float) (info : info_arg I) : result (DOSData I) :=
  match cls with
  | RawDOSData => RawDOSData___init__ energies weights info
  | GridDOSData => GridDOSData___init__ energies weights info
  end.

(** [GeneralDOSData.copy]: a new object of the same class with a copy of
    the info dict. *)
Definition GeneralDOSData_copy (self : DOSData Info) : result (DOSData Info) :=
  DOSData_construct (class_of self)
    (GeneralDOSData_get_energies self) (GeneralDOSData_get_weights self)
    (InfoDict (info self)).

(** A Python object met where the code tests [isinstance(other, ...)] on
    an argument of any type. *)
Inductive pyobject :=
| PyNone
| PyFloat (x : float)
| PyStr (s : string)
| PyDOSData (d : DOSData Info).

(** [dict(set(a.items()) & set(b.items()))] *)
Definition info_intersection (a b : Info) : Info :=
  filter (fun kv => b !! kv.1 = Some kv.2) a.

(** [np.concatenate((a, b), axis=1)] on two arrays of two rows. *)
Definition np_concatenate_axis1 (a b : list float * list float)
    : list float * list float :=
  (a.1 ++ b.1, a.2 ++ b.2).

(** [DOSData._almost_equals] *)
Definition DOSData__almost_equals (self : DOSData Info) (other : pyobject)
    : result bool :=
  match other with
  | PyDOSData o =>
      if negb (bool_decide (class_of o = class_of self)) then Ok false
      else if negb (bool_decide (info self = info o)) then Ok false
      else
        wclose ← np_allclose (GeneralDOSData_get_weights self)
                             (GeneralDOSData_get_weights o);
        if negb wclose then Ok false
        else np_allclose (GeneralDOSData_get_energies self)
                         (GeneralDOSData_get_energies o)
  | _ => Ok false
  end.

(** [DOSData._check_positive_width] *)
Definition DOSData__check_positive_width (width : float) : result unit :=
  if PrimFloat.leb width 0%float then Raise ValueError else Ok tt.

(** [RawDOSData.__add__] *)
Definition RawDOSData___add__ (self : DOSData Info) (other : pyobject)
    : result (DOSData Info) :=
  match other with
  | PyDOSData o =>
      if negb (bool_decide (class_of o = RawDOSData)) then Raise TypeError
      else
        let new_info := info_intersection (info self) (info o) in
        let new_data := np_concatenate_axis1 (_data self) (_data o) in
        new_object ← RawDOSData___init__ [] [] (InfoDict new_info);
        Ok (mkDOSData (class_of new_object) new_data (info new_object))
  | _ => Raise TypeError
  end.

(** [GridDOSData.__add__] *)
Definition GridDOSData___add__ (self : DOSData Info) (other : pyobject)
    : result (DOSData Info) :=
  match other with
  | PyDOSData o =>
      if negb (bool_decide (class_of o = GridDOSData)) then Raise TypeError
      else if negb (bool_decide (length (_data self).1
                                 = length (GeneralDOSData_get_energies o)))
      then Raise ValueError
      else
        close ← np_allclose (_data self).1 (GeneralDOSData_get_energies o);
        if negb close then Raise ValueError
        else
          let new_info := info_intersection (info self) (info o) in
          ps ← np_broadcast (_data self).2 (GeneralDOSData_get_weights o);
          let new_weights := map (fun p => (p.1 + p.2)%float) ps in
          GridDOSData___init__ (_data self).1 new_weights (InfoDict new_info)
  | _ => Raise TypeError
  end.

(** [x + y] for a [DOSData] object [x]: the [__add__] of its class.
    Neither class defines [__radd__], and both [__add__] raise instead of
    returning [NotImplemented]. *)
Definition DOSData_plus (x : DOSData Info) (y : pyobject) : result (DOSData Info) :=
  match class_of x with
  | RawDOSData => RawDOSData___add__ x y
  | GridDOSData => GridDOSData___add__ x y
  end.

(** [GridDOSData._check_spacing] *)
Definition GridDOSData__check_spacing (self : DOSData Info) (width : float)
    : M float :=
  e1 ← lift (py_index (_data self).1 1);
  e0 ← lift (py_index (_data self).1 0);
  let current_spacing := (e1 - e0)%float in
  _ ← (if PrimFloat.ltb width (2 * current_spacing)%float
       then warn SmallBroadeningWidth else mret tt);
  mret current_spacing.

Section Sampling.

(** [np.exp] on a scalar is taken from the platform's C library and is
    left as a parameter of the sampling functions. *)
Variable np_exp : float -> float.

(** [DOSData._delta]; [x] is a 1-D array, [x0] a scalar. *)
Definition DOSData__delta (x : list float) (x0 width : float)
    (smearing : string) : result (list float) :=
  if bool_decide (str_lower smearing = "gauss") then
    Ok (map (fun xi =>
               let q := ((xi - x0) / width)%float in
               let x1 := (-0.5 * (q * q))%float in
               (np_exp x1 / (PrimFloat.sqrt (2 * np_pi) * width))%float) x)
  else Raise ValueError.

(** The loop of [DOSData._sample] from index [i] on: [raw] are the
    entries of [self.get_energies()] still to visit. *)
Fixpoint DOSData__sample_loop (weights energies : list float)
    (width : float) (smearing : string) (i : nat) (raw : list float)
    (weights_grid : list float) : result (list float) :=
  match raw with
  | [] => Ok weights_grid
  | raw_energy :: raw' =>
      delta ← DOSData__delta energies raw_energy width smearing;
      w ← py_index weights (Z.of_nat i);
      let weights_grid :=
        zip_with (fun g d => (g + w * d)%float) weights_grid delta in
      DOSData__sample_loop weights energies width smearing (S i) raw'
                           weights_grid
  end.

(** [DOSData._sample] (the base-class method) *)
Definition DOSData__sample (self : DOSData Info) (energies : list float)
    (width : float) (smearing : string) : result (list float) :=
  _ ← DOSData__check_positive_width width;
  let weights_grid := replicate (length energies) 0%float in
  let weights := GeneralDOSData_get_weights self in
  DOSData__sample_loop weights energies width smearing 0
    (GeneralDOSData_get_energies self) weights_grid.

(** [GridDOSData._sample] (the override) *)
Definition GridDOSData__sample (self : DOSData Info) (energies : list float)
    (width : float) (smearing : string) : M (list float) :=
  current_spacing ← GridDOSData__check_spacing self width;
  base ← lift (DOSData__sample self energies width smearing);
  mret (map (fun v => (v * current_spacing)%float) base).

(** [self._sample(...)]: the method of the object's class. *)
Definition _sample (self : DOSData Info) (energies : list float)
    (width : float) (smearing : string) : M (list float) :=
  match class_of self with
  | RawDOSData => lift (DOSData__sample self energies width smearing)
  | GridDOSData => GridDOSData__sample self energies width smearing
  end.

(** [DOSData.sample_grid] *)
Definition DOSData_sample_grid (self : DOSData Info) (npts : Z)
    (xmin xmax : option float) (padding width : float) (smearing : string)
    : M (DOSData Info) :=
  xmin ← lift (match xmin with
               | None => m ← py_min (GeneralDOSData_get_energies self);
                         Ok (m - padding * width)%float
               | Some x => Ok x
               end);
  xmax ← lift (match xmax with
               | None => m ← py_max (GeneralDOSData_get_energies self);
                         Ok (m + padding * width)%float
               | Some x => Ok x
               end);
  energies_grid ← lift (np_linspace xmin xmax npts);
  weights_grid ← _sample self energies_grid width smearing;
  lift (GridDOSData___init__ energies_grid weights_grid
          (InfoDict (info self))).

End Sampling.

(* ================================================================== *)
(** ** doscollection.py *)
(* ================================================================== *)

(** The three collection classes; the last two subclass the first. *)
Inductive coll_class := DOSCollection | RawDOSCollection | GridDOSCollection.

#[global] Instance coll_class_eq_dec : EqDecision coll_class.
Proof. solve_decision. Defined.

(** [issubclass(c, d)] *)
Definition issubclass (c d : coll_class) : bool :=
  match d with
  | DOSCollection => true
  | _ => bool_decide (c = d)
  end.

(** A collection object with its attributes: [_data] for the classes that
    inherit [DOSCollection.__init__]; [_energies], [_weights] (the rows
    of the 2-D array) and [_info] for [GridDOSCollection]. *)
Inductive Collection (I : Type) :=
| DOSCollection_obj (_data : list (DOSData I))
| RawDOSCollection_obj (_data : list (DOSData I))
| GridDOSCollection_obj (_energies : list float)
                        (_weights : list (list float)) (_info : list I).
Arguments DOSCollection_obj {I} _data.
Arguments RawDOSCollection_obj {I} _data.
Arguments GridDOSCollection_obj {I} _energies _weights _info.

(** [type(self)] *)
Definition type_of {I} (self : Collection I) : coll_class :=
  match self with
  | DOSCollection_obj _ => DOSCollection
  | RawDOSCollection_obj _ => RawDOSCollection
  | GridDOSCollection_obj _ _ _ => GridDOSCollection
  end.

(** [DOSCollection.__len__] *)
Definition DOSCollection___len__ {I} (_data : list (DOSData I)) : nat :=
  length _data.
Arguments DOSCollection___len__ {I} _data /.

(** [GridDOSCollection.__len__]: [self._weights.shape[0]] *)
Definition GridDOSCollection___len__ (_weights : list (list float)) : nat :=
  length _weights.
Arguments GridDOSCollection___len__ _weights /.

(** [len(self)]: the method of the object's class. *)
Definition Collection___len__ {I} (self : Collection I) : nat :=
  match self with
  | DOSCollection_obj d | RawDOSCollection_obj d => DOSCollection___len__ d
  | GridDOSCollection_obj _ w _ => GridDOSCollection___len__ w
  end.

(** [DOSCollection.__getitem__] for an [int]: [self._data[item]].
    (Slices are not modelled; an index of another type raises
    [TypeError] in both classes.) *)
Definition DOSCollection___getitem__ {I} (_data : list (DOSData I)) (item : Z)
    : result (DOSData I) :=
  py_index _data item.
Arguments DOSCollection___getitem__ {I} _data item /.

(** [GridDOSCollection.__getitem__] for an [int]. *)
Definition GridDOSCollection___getitem__ {I} (_energies : list float)
    (_weights : list (list float)) (_info : list I) (item : Z)
    : result (DOSData I) :=
  row ← py_index _weights item;
  i ← py_index _info item;
  GridDOSData___init__ _energies row (InfoDict i).

(** [self[item]] for an [int]: the method of the object's class. *)
Definition Collection___getitem__ {I} (self : Collection I) (item : Z)
    : result (DOSData I) :=
  match self with
  | DOSCollection_obj d | RawDOSCollection_obj d => DOSCollection___getitem__ d item
  | GridDOSCollection_obj e w i => GridDOSCollection___getitem__ e w i item
  end.

(** [collections.abc.Sequence.__iter__]: [self[0]], [self[1]], ... until
    an [IndexError], which ends the iteration; any other exception
    propagates.  Index [len(self)] always raises [IndexError]
    ([getitem_len]), so the indices below it are all that is visited. *)
Fixpoint Sequence___iter___from {I} (self : Collection I) (idx : list nat)
    : result (list (DOSData I)) :=
  match idx with
  | [] => Ok []
  | i :: idx' =>
      match Collection___getitem__ self (Z.of_nat i) with
      | Ok v => vs ← Sequence___iter___from self idx'; Ok (v :: vs)
      | Raise IndexError => Ok []
      | Raise e => Raise e
      end
  end.

Definition Sequence___iter__ {I} (self : Collection I) : result (list (DOSData I)) :=
  Sequence___iter___from self (seq 0 (Collection___len__ self)).

(** [DOSCollection.__init__] *)
Definition DOSCollection___init__ {I} (dos_series : list (DOSData I))
    : result (Collection I) :=
  Ok (DOSCollection_obj dos_series).

(** [RawDOSCollection.__init__] *)
Definition RawDOSCollection___init__ {I} (dos_series : list (DOSData I))
    : result (Collection I) :=
  let self := RawDOSCollection_obj dos_series in
  items ← Sequence___iter__ self;
  if forallb (fun dos_data => bool_decide (class_of dos_data = RawDOSData)) items
  then Ok self else Raise TypeError.

(** [self._weights[i, :] = w] for a row of length [m]: [w] must have
    length [m] or 1. *)
Definition np_assign_row (m : nat) (w : list float) : result (list float) :=
  if decide (length w = m) then Ok w
  else match w with
       | [x] => Ok (replicate m x)
       | _ => Raise ValueError
       end.

(** The loop of [GridDOSCollection.__init__]: the rows written to
    [self._weights] and the dicts appended to [self._info]. *)
Fixpoint GridDOSCollection___init___loop {I} (_energies : list float)
    (dos_list : list (DOSData I)) : result (list (list float) * list I) :=
  match dos_list with
  | [] => Ok ([], [])
  | dos_data :: rest =>
      if negb (bool_decide (class_of dos_data = GridDOSData))
      then Raise TypeError
      else if negb (bool_decide (length (GeneralDOSData_get_energies dos_data)
                                 = length _energies))
      then Raise ValueError
      else
        close ← np_allclose (GeneralDOSData_get_energies dos_data) _energies;
        if negb close then Raise ValueError
        else
          row ← np_assign_row (length _energies)
                              (GeneralDOSData_get_weights dos_data);
          '(rows, infos) ← GridDOSCollection___init___loop _energies rest;
          Ok (row :: rows, info dos_data :: infos)
  end.

(** [GridDOSCollection.__init__] *)
Definition GridDOSCollection___init__ {I} (dos_series : list (DOSData I))
    : result (Collection I) :=
  let dos_list := dos_series in
  first ← py_index dos_list 0;
  let _energies := GeneralDOSData_get_energies first in
  '(rows, infos) ← GridDOSCollection___init___loop _energies dos_list;
  Ok (GridDOSCollection_obj _energies rows infos).

(** [cls(dos_series)], in particular [type(self)(...)]. *)
Definition Collection_construct {I} (cls : coll_class)
    (dos_series : list (DOSData I)) : result (Collection I) :=
  match cls with
  | DOSCollection => DOSCollection___init__ dos_series
  | RawDOSCollection => RawDOSCollection___init__ dos_series
  | GridDOSCollection => GridDOSCollection___init__ dos_series
  end.

(** Modelled from the spec: [DOSData.sample].  The module
    [ase.dft.dosdata] that doscollection.py imports its [DOSData] classes
    from is missing, and with it the methods [sample] and [__eq__] that
    [DOSCollection] calls on its entries; the classes of
    [ase/spectrum/dosdata.py] have neither.  By the spec each entry is
    "sampled via the entity's own [_sample] contract": [data.sample(...)]
    is the [_sample] of the entry's class. *)
Definition DOSData_sample (np_exp : float -> float) (self : DOSData Info)
    (energies : list float) (width : float) (smearing : string)
    : M (list float) :=
  _sample np_exp self energies width smearing.

(** Modelled from the spec: [DOSData.__eq__], missing with
    [ase.dft.dosdata] as said above; "entity equality (numerically
    tolerant on energies/weights, exact on info)" is what
    [_almost_equals] computes. *)
Definition DOSData___eq__ (self : DOSData Info) (other : pyobject) : result bool :=
  DOSData__almost_equals self other.

(** [DOSCollection.sample] *)
Definition DOSCollection_sample (np_exp : float -> float)
    (self : Collection Info) (energies : list float) (width : float)
    (smearing : string) : M ndarray :=
  items ← lift (Sequence___iter__ self);
  rows ← mapM (fun data => DOSData_sample np_exp data energies width smearing)
              items;
  lift (np_asarray rows).

(** [DOSCollection.__eq__] for [other] a collection. *)
Definition DOSCollection___eq__ (self other : Collection Info) : result bool :=
  if negb (issubclass (type_of other) (type_of self)) then Ok false
  else if negb (bool_decide (Collection___len__ self = Collection___len__ other))
  then Ok false
  else
    xs ← Sequence___iter__ self;
    ys ← Sequence___iter__ other;
    bs ← mapM (fun ab => DOSData___eq__ ab.1 (PyDOSData ab.2)) (zip xs ys);
    Ok (forallb id bs).

(** [a == b] on two collections.  When the class of [b] is a proper
    subclass of the class of [a], Python tries [b.__eq__(a)] first;
    [DOSCollection.__eq__] never returns [NotImplemented], so the first
    method tried gives the answer. *)
Definition Collection_eq (a b : Collection Info) : result bool :=
  if negb (bool_decide (type_of a = type_of b))
     && issubclass (type_of b) (type_of a)
  then DOSCollection___eq__ b a
  else DOSCollection___eq__ a b.

(** [reduce(lambda x, y: x + y, items)] *)
Fixpoint reduce_plus_from (acc : DOSData Info) (items : list (DOSData Info))
    : result (DOSData Info) :=
  match items with
  | [] => Ok acc
  | y :: rest => acc' ← DOSData_plus acc (PyDOSData y); reduce_plus_from acc' rest
  end.

Definition reduce_plus (items : list (DOSData Info)) : result (DOSData Info) :=
  match items with
  | [] => Raise TypeError
  | x :: rest => reduce_plus_from x rest
  end.

(** [DOSCollection.sum_all] *)
Definition DOSCollection_sum_all (self : Collection Info) : result (DOSData Info) :=
  if decide (Collection___len__ self = 0) then Raise IndexError
  else if decide (Collection___len__ self = 1) then
    first ← Collection___getitem__ self 0;
    GeneralDOSData_copy first
  else
    items ← Sequence___iter__ self;
    reduce_plus items.

(** [d.info.update({'label': 'Total'})] on an object whose info dict no
    other object holds. *)
Definition label_total (data : DOSData Info) : DOSData Info :=
  mkDOSData (class_of data) (_data data) (<["label" := "Total"]> (info data)).

(** [DOSCollection.total] *)
Definition DOSCollection_total (self : Collection Info) : result (DOSData Info) :=
  data ← DOSCollection_sum_all self;
  Ok (label_total data).

(** [query.issubset(set(data.info.items()))] *)
Definition query_issubset (query info : Info) : Prop :=
  map_Forall (fun k v => info !! k = Some v) query.

#[global] Instance query_issubset_dec q i : Decision (query_issubset q i).
Proof. unfold query_issubset. apply _. Defined.

(** [DOSCollection.select]; [None] is the result without a match. *)
Definition DOSCollection_select (self : Collection Info) (info_selection : Info)
    : result (option (Collection Info)) :=
  let query := info_selection in
  items ← Sequence___iter__ self;
  let matches := filter (fun data => query_issubset query (info data)) items in
  match matches with
  | [] => Ok None
  | _ => Some <$> Collection_construct (type_of self) matches
  end.

(** [self.select] called with the keyword arguments of the dict
    [kwargs]: a keyword named like the parameter [self] collides with
    the bound object and the call raises [TypeError]. *)
Definition call_select (self : Collection Info) (kwargs : Info)
    : result (option (Collection Info)) :=
  if bool_decide (is_Some (kwargs !! "self")) then Raise TypeError
  else DOSCollection_select self kwargs.

(** [DOSCollection._sum_all_safely] *)
Definition DOSCollection__sum_all_safely (selection : option (Collection Info))
    : result (DOSData Info) :=
  match selection with
  | None => Raise ValueError
  | Some sel => DOSCollection_sum_all sel
  end.

(** *** Ordering of strings, pairs and tuples, as [sorted] uses it *)

(** Python compares [str] by code points, tuples lexicographically, a
    proper prefix before the longer tuple. *)
Definition pair_lex {A B} (ca : A -> A -> comparison)
    (cb : B -> B -> comparison) (x y : A * B) : comparison :=
  match ca x.1 y.1 with
  | Eq => cb x.2 y.2
  | c => c
  end.

Definition pair_compare (a b : string * string) : comparison :=
  pair_lex String.compare String.compare a b.

Fixpoint list_compare {A} (cmp : A -> A -> comparison) (a b : list A)
    : comparison :=
  match a, b with
  | [], [] => Eq
  | [], _ :: _ => Lt
  | _ :: _, [] => Gt
  | x :: a', y :: b' =>
      match cmp x y with
      | Eq => list_compare cmp a' b'
      | c => c
      end
  end.

Definition tuple_compare (a b : list (string * string)) : comparison :=
  list_compare pair_compare a b.

Definition cmp_le {A} (cmp : A -> A -> comparison) (x y : A) : Prop :=
  cmp x y ≠ Gt.
Definition cmp_lt {A} (cmp : A -> A -> comparison) (x y : A) : Prop :=
  cmp x y = Lt.

#[global] Instance cmp_le_dec {A} (cmp : A -> A -> comparison) x y :
  Decision (cmp_le cmp x y).
Proof. unfold cmp_le. destruct (cmp x y); [left|left|right]; congruence. Defined.

(** [sorted(s)] for a set [s] listed in [l] (no repetitions). *)
Definition py_sorted {A} (cmp : A -> A -> comparison) (l : list A) : list A :=
  merge_sort (cmp_le cmp) l.

(** [tuple(sorted(set({key: value for key, value in info.items()
                       if key in info_keys}.items())))] *)
Definition restricted_info (info_keys : list string) (info : Info) : Info :=
  filter (fun kv => kv.1 ∈ info_keys) info.

Definition combo_of (info_keys : list string) (info : Info)
    : list (string * string) :=
  py_sorted pair_compare (map_to_list (restricted_info info_keys info)).

(** [unique_combos] of [sum_by] *)
Definition unique_combos_of (info_keys : list string)
    (items : list (DOSData Info)) : list (list (string * string)) :=
  let all_combos := map (fun data => combo_of info_keys (info data)) items in
  py_sorted tuple_compare (remove_dups all_combos).

(** [self._sum_all_safely(self.select( **dict(combo)))]; the keys of a
    combo are distinct, so [dict(combo)] has all its pairs. *)
Definition sum_group (self : Collection Info) (combo : list (string * string))
    : result (DOSData Info) :=
  selection ← call_select self (list_to_map combo);
  DOSCollection__sum_all_safely selection.

(** [DOSCollection.sum_by] *)
Definition DOSCollection_sum_by (self : Collection Info)
    (info_keys : list string) : result (Collection Info) :=
  items ← Sequence___iter__ self;
  let unique_combos := unique_combos_of info_keys items in
  collection_data ← mapM (sum_group self) unique_combos;
  Collection_construct (type_of self) collection_data.

(* ================================================================== *)
(** ** Shared info dicts *)
(* ================================================================== *)

(** [DOSData.__init__] binds [self.info] to the dict it is given, and
    [GridDOSCollection] keeps in [_info] the dicts of the objects it was
    built from and hands them to the objects it builds on indexing.  To
    follow a dict through these objects, dicts live in a store and an
    object holds the location of its dict: the objects are
    [DOSData loc] and [Collection loc]. *)
Definition loc := positive.
Abbreviation store := (gmap loc Info).

(** [d.info] read in store [h]. *)
Definition info_in (h : store) (d : DOSData loc) : option Info :=
  h !! info d.

(** [d.info[key] = value]: the dict at the object's location is updated
    in place. *)
Definition info_setitem (h : store) (d : DOSData loc) (key value : string)
    : store :=
  alter (fun m => <[key := value]> m) (info d) h.


(* ================================================================== *)
(** ** Invariants and the entries of a collection *)
(* ================================================================== *)

(** The invariant of the data model: as many energies as weights. *)
Definition len_invariant {I} (d : DOSData I) : Prop :=
  length (GeneralDOSData_get_energies d) = length (GeneralDOSData_get_weights d).

(** What every object built by a constructor satisfies: the invariant,
    and for a [GridDOSData] the test on its energies. *)
Definition valid_DOSData {I} (d : DOSData I) : Prop :=
  len_invariant d ∧
  (class_of d = GridDOSData →
   evenly_spaced (GeneralDOSData_get_energies d) = Ok true).

(** The class invariant of a collection: a [RawDOSCollection] holds
    [RawDOSData] only; the rows of a [GridDOSCollection] are as long as
    its energy axis, which passed the test of [GridDOSData], and there
    is one info dict per row. *)
Definition wf_collection {I} (self : Collection I) : Prop :=
  match self with
  | DOSCollection_obj _ => True
  | RawDOSCollection_obj d => Forall (fun x => class_of x = RawDOSData) d
  | GridDOSCollection_obj e w i =>
      evenly_spaced e = Ok true ∧
      Forall (fun row => length row = length e) w ∧
      length i = length w
  end.

(** The objects a collection yields when iterated. *)
Definition entries {I} (self : Collection I) : list (DOSData I) :=
  match self with
  | DOSCollection_obj d | RawDOSCollection_obj d => d
  | GridDOSCollection_obj e w i =>
      zip_with (fun row inf => mkDOSData GridDOSData (e, row) inf) w i
  end.

(** An entry that [_sample] accepts: the invariant holds, and a
    [GridDOSData] has the two grid points [_check_spacing] reads. *)
Definition samplable (d : DOSData Info) : Prop :=
  len_invariant d ∧
  (class_of d = GridDOSData → 2 ≤ length (GeneralDOSData_get_energies d)).

(** [smearing] names the one kernel [_delta] knows. *)
Definition recognized (smearing : string) : Prop :=
  str_lower smearing = "gauss".

(** [isinstance(other, RawDOSData)] *)
Definition is_RawDOSData (other : pyobject) : bool :=
  match other with
  | PyDOSData o => bool_decide (class_of o = RawDOSData)
  | _ => false
  end.

(** The objects a program can obtain from given ones by the operations
    that build a [DOSData]: a constructor, [copy], [+] and
    [sample_grid]. *)
Inductive produced (np_exp : float -> float) : DOSData Info -> Prop :=
| produced_construct cls energies weights info d :
    DOSData_construct cls energies weights info = Ok d ->
    produced np_exp d
| produced_copy d d' :
    produced np_exp d ->
    GeneralDOSData_copy d = Ok d' ->
    produced np_exp d'
| produced_plus a b d :
    produced np_exp a -> produced np_exp b ->
    DOSData_plus a (PyDOSData b) = Ok d ->
    produced np_exp d
| produced_sample_grid d npts xmin xmax padding width smearing d' :
    produced np_exp d ->
    outcome (DOSData_sample_grid np_exp d npts xmin xmax padding width smearing)
      = Ok d' ->
    produced np_exp d'.

(** *** The grouping of [sum_by] as the specification words it *)

(** The entries whose info restricted to the keys is the sub-mapping
    listed in [combo]. *)
Definition group_of (info_keys : list string) (items : list (DOSData Info))
    (combo : list (string * string)) : list (DOSData Info) :=
  filter (fun data => combo_of info_keys (info data) = combo) items.

(** The entries [select] returns for the criteria in [combo]. *)
Definition selected_by (items : list (DOSData Info))
    (combo : list (string * string)) : list (DOSData Info) :=
  filter (fun data => query_issubset (list_to_map combo) (info data)) items.

(** [sum_all] of the collection of [type(self)] made of [members]. *)
Definition sum_members (cls : coll_class) (members : list (DOSData Info))
    : result (DOSData Info) :=
  match members with
  | [] => Raise ValueError
  | _ => sel ← Collection_construct cls members; DOSCollection_sum_all sel
  end.

(** [sum_by] as the specification states it: one summed entry per
    distinct restricted sub-mapping, each the [sum_all] of exactly the
    entries with that sub-mapping, in the sorted order of the
    sub-mappings. *)
Definition sum_by_spec (self : Collection Info) (info_keys : list string)
    : result (Collection Info) :=
  items ← Sequence___iter__ self;
  collection_data ←
    mapM (fun combo => sum_members (type_of self) (group_of info_keys items combo))
         (unique_combos_of info_keys items);
  Collection_construct (type_of self) collection_data.

(** No entry's info contains the restricted sub-mapping of an entry
    with a different restricted sub-mapping. *)
Definition no_partial_match (info_keys : list string)
    (items : list (DOSData Info)) : Prop :=
  ∀ d d', d ∈ items → d' ∈ items →
    query_issubset (restricted_info info_keys (info d)) (info d') →
    restricted_info info_keys (info d') = restricted_info info_keys (info d).

(** The entry has a value for each of the keys. *)
Definition has_all_keys (info_keys : list string) (d : DOSData Info) : Prop :=
  ∀ k, k ∈ info_keys → is_Some (info d !! k).





(** What makes a three-way comparison a strict total order. *)
Record CmpOrder {A} (cmp : A -> A -> comparison) : Prop := {
  cmp_eq_iff : ∀ x y, cmp x y = Eq ↔ x = y;
  cmp_antisym : ∀ x y, cmp y x = CompOpp (cmp x y);
  cmp_lt_trans : ∀ x y z, cmp x y = Lt → cmp y z = Lt → cmp x z = Lt
}.

(* ================================================================== *)
(** ** dosdata.py and doscollection.py: the remaining methods *)
(* ================================================================== *)

(** [GridDOSData._interpret_smearing_args]; [if npts:] tests
    [npts != 0], [float(width)] of a float is the float. *)
Definition GridDOSData__interpret_smearing_args (npts : Z)
    (width : option float) (default_npts : Z) (default_width : float)
    : Z * option float :=
  match width with
  | Some w =>
      if negb (npts =? 0)%Z then (npts, Some w) else (default_npts, Some w)
  | None =>
      if negb (npts =? 0)%Z then (npts, Some default_width) else (0%Z, None)
  end.

(** [DOSData.label_from_info]; [items] is [list(info.items())], the pairs
    of the dict in the order of insertion, with distinct keys. *)
Definition DOSData_label_from_info (items : list (string * string)) : string :=
  match list_find (fun kv => kv.1 = "label") items with
  | Some (_, (_, v)) => v
  | None =>
      String.concat "; "
        (map (fun x => String.append x.1 (String.append ": " x.2)) items)
  end.

(** [GeneralDOSData.copy] in the store: [self.info.copy()] is a new dict
    with the pairs of the old one, at the unused location [new]; the
    constructor binds the new object to it.  [None] stands for an object
    whose dict is not in the store. *)
Definition GeneralDOSData_copy_in (h : store) (self : DOSData loc) (new : loc)
    : option (store * result (DOSData loc)) :=
  m ← h !! info self;
  Some (<[new := m]> h,
        DOSData_construct (class_of self)
          (GeneralDOSData_get_energies self) (GeneralDOSData_get_weights self)
          (InfoDict new)).

(** [DOSCollection.select_not] *)
Definition DOSCollection_select_not (self : Collection Info)
    (info_selection : Info) : result (option (Collection Info)) :=
  let query := info_selection in
  items ← Sequence___iter__ self;
  let matches :=
    filter (fun data => ¬ query_issubset query (info data)) items in
  match matches with
  | [] => Ok None
  | _ => Some <$> Collection_construct (type_of self) matches
  end.

(** [self.select_not] called with the keyword arguments of the dict
    [kwargs]; a keyword named [self] collides as in [call_select]. *)
Definition call_select_not (self : Collection Info) (kwargs : Info)
    : result (option (Collection Info)) :=
  if bool_decide (is_Some (kwargs !! "self")) then Raise TypeError
  else DOSCollection_select_not self kwargs.

(** The right operand of [+] on a collection. *)
Inductive operand :=
| OpNone
| OpDOSData (d : DOSData Info)
| OpCollection (c : Collection Info)
| OpOther.

(** [_add_data], the implementation of [_add_to_collection] registered
    for [DOSData]. *)
Definition _add_data (other : DOSData Info) (collection : Collection Info)
    : result (Collection Info) :=
  items ← Sequence___iter__ collection;
  Collection_construct (type_of collection) (items ++ [other]).

(** [_add_none], the implementation registered for [type(None)]. *)
Definition _add_none (collection : Collection Info) : result (Collection Info) :=
  Ok collection.

(** [_add_to_collection]: [singledispatch] on the class of [other]; the
    body of the generic function serves every other class. *)
Definition _add_to_collection (other : operand) (collection : Collection Info)
    : result (Collection Info) :=
  match other with
  | OpDOSData d => _add_data d collection
  | OpNone => _add_none collection
  | OpCollection o =>
      if issubclass (type_of o) (type_of collection) then
        items ← Sequence___iter__ collection;
        others ← Sequence___iter__ o;
        Collection_construct (type_of collection) (items ++ others)
      else Raise TypeError
  | OpOther => Raise TypeError
  end.

(** [DOSCollection.__add__] *)
Definition DOSCollection___add__ (self : Collection Info) (other : operand)
    : result (Collection Info) :=
  _add_to_collection other self.



(** [DOSCollection._check_weights_and_info]; [weights] is a nested
    sequence, [info] a sequence of dicts or [None]. *)
Definition DOSCollection__check_weights_and_info (weights : list (list float))
    (info : option (list Info)) : result (list Info) :=
  match info with
  | None => Ok (map (fun _ => (∅ : Info)) (seq 0 (length weights)))
  | Some info =>
      if decide (length info ≠ length weights) then Raise ValueError
      else Ok info
  end.

(** [DOSCollection.from_data], as [DOSCollection] and [RawDOSCollection]
    have it; the generator is consumed by [list(dos_series)] in the
    constructor of [cls]. *)
Definition DOSCollection_from_data (cls : coll_class) (energies : list float)
    (weights : list (list float)) (info : option (list Info))
    : result (Collection Info) :=
  info ← DOSCollection__check_weights_and_info weights info;
  dos_series ← mapM (fun wi => RawDOSData___init__ energies wi.1 (InfoDict wi.2))
                    (zip weights info);
  Collection_construct cls dos_series.

(** [GridDOSCollection.from_data] *)
Definition GridDOSCollection_from_data (energies : list float)
    (weights : list (list float)) (info : option (list Info))
    : result (Collection Info) :=
  weights_array ← np_asarray weights;
  match weights_array with
  | Array1 _ => Raise IndexError
  | Array2 rows =>
      if (length rows <? 1)%nat then Raise IndexError
      else
        row0 ← py_index rows 0;
        if decide (length row0 ≠ length energies) then Raise IndexError
        else
          info ← DOSCollection__check_weights_and_info weights info;
          first ← GridDOSData___init__ energies row0 (InfoNone (∅ : Info));
          dos_collection ← GridDOSCollection___init__ [first];
          match dos_collection with
          | GridDOSCollection_obj _energies _ _ =>
              Ok (GridDOSCollection_obj _energies rows info)
          | c => Ok c
          end
  end.

(** [cls.from_data(energies, weights, info)] *)
Definition Collection_from_data (cls : coll_class) (energies : list float)
    (weights : list (list float)) (info : option (list Info))
    : result (Collection Info) :=
  match cls with
  | GridDOSCollection => GridDOSCollection_from_data energies weights info
  | _ => DOSCollection_from_data cls energies weights info
  end.

(** [DOSCollection.sample_grid] *)
Definition DOSCollection_sample_grid (np_exp : float -> float)
    (self : Collection Info) (npts : Z) (xmin xmax : option float)
    (padding width : float) (smearing : string)
    : M (list float * ndarray) :=
  xmin ← lift (match xmin with
               | None =>
                   items ← Sequence___iter__ self;
                   mins ← mapM (fun data =>
                                  py_min (GeneralDOSData_get_energies data)) items;
                   m ← py_min mins;
                   Ok (m - padding * width)%float
               | Some x => Ok x
               end);
  xmax ← lift (match xmax with
               | None =>
                   items ← Sequence___iter__ self;
                   maxs ← mapM (fun data =>
                                  py_max (GeneralDOSData_get_energies data)) items;
                   m ← py_max maxs;
                   Ok (m + padding * width)%float
               | Some x => Ok x
               end);
  energies ← lift (np_linspace xmin xmax npts);
  sampled ← DOSCollection_sample np_exp self energies width smearing;
  mret (energies, sampled).

(** The entries of an optional collection. *)
Definition entries_opt (c : option (Collection Info)) : list (DOSData Info) :=
  match c with Some c => entries c | None => [] end.

(* ================================================================== *)
(** ** Example objects *)
(* ================================================================== *)

(** The operands of the example of the specification,
    [RawDOSData([1],[2],{'a':'1','b':'1'}) + RawDOSData([3],[4],{'a':'2','b':'1'})]. *)
Definition raw_a1b1 : DOSData Info :=
  mkDOSData RawDOSData ([1%float], [2%float]) (<["a" := "1"]> (<["b" := "1"]> ∅)).
Definition raw_a2b1 : DOSData Info :=
  mkDOSData RawDOSData ([3%float], [4%float]) (<["a" := "2"]> (<["b" := "1"]> ∅)).

Definition raw_a1 : DOSData Info :=
  mkDOSData RawDOSData ([1%float], [2%float]) (<["a" := "1"]> ∅).

Definition grid_01 : DOSData Info :=
  mkDOSData GridDOSData ([0%float; 1%float], [1%float; 1%float]) ∅.

(** The [GridDOSData] with the single grid point 0. *)
Definition grid_0 : DOSData Info :=
  mkDOSData GridDOSData ([0%float], [1%float]) ∅.


(** The collection of the docstring of [sum_by]. *)
Definition raw_a2b2 : DOSData Info :=
  mkDOSData RawDOSData ([5%float], [6%float]) (<["a" := "2"]> (<["b" := "2"]> ∅)).

Definition docstring_collection : Collection Info :=
  DOSCollection_obj [raw_a1b1; raw_a2b1; raw_a2b2].

Definition raw_noinfo : DOSData Info :=
  mkDOSData RawDOSData ([3%float], [4%float]) ∅.

Definition grid_01_b : DOSData Info :=
  mkDOSData GridDOSData ([0%float; 1%float], [2%float; 3%float])
            (<["a" := "1"]> ∅).

(** [isinstance(other, GridDOSData)] *)
Definition is_GridDOSData (other : pyobject) : bool :=
  match other with
  | PyDOSData o => bool_decide (class_of o = GridDOSData)
  | _ => false
  end.

Definition grid_013 : DOSData Info :=
  mkDOSData GridDOSData ([0%float; 1%float; 3%float],
                         [1%float; 1%float; 1%float]) ∅.
Definition grid_012 : DOSData Info :=
  mkDOSData GridDOSData ([0%float; 1%float; 2%float],
                         [1%float; 1%float; 1%float]) ∅.

(** [RawDOSData([], [])] *)
Definition raw_empty : DOSData Info := mkDOSData RawDOSData ([], []) ∅.


Definition raw_a1_at (l : loc) : DOSData loc :=
  mkDOSData RawDOSData ([1%float], [2%float]) l.

(** The energy axis of a [GridDOSCollection] is close to itself: the
    loop of the constructor tests this on the first element. *)
Definition axis_close {I} (self : Collection I) : Prop :=
  match self with
  | GridDOSCollection_obj e _ _ => np_allclose e e = Ok true
  | _ => True
  end.

(** The objects of [l] are among the entries of [self]. *)
Definition entries_of {I} (self : Collection I) (l : list (DOSData I)) : Prop :=
  Forall (fun d => d ∈ entries self) l.

(* ================================================================== *)
(** ** Basic facts *)
(* ================================================================== *)

Lemma bind_Ok {A B} (m : result A) (f : A -> result B) b :
  m ≫= f = Ok b ↔ ∃ a, m = Ok a ∧ f a = Ok b.
Proof.
  destruct m as [a|e]; simpl; split.
  - intros H. by exists a.
  - by intros (a' & [= ->] & H).
  - discriminate.
  - by intros (a' & [=] & _).
Qed.

Lemma py_index_nat {A} (l : list A) (i : nat) :
  py_index l (Z.of_nat i)
  = match l !! i with Some x => Ok x | None => Raise IndexError end.
Proof.
  unfold py_index.
  destruct (Z.ltb_spec (Z.of_nat i) 0) as [?|_]; [lia|].
  destruct (Z.ltb_spec (Z.of_nat i) 0) as [?|_]; [lia|].
  by rewrite Nat2Z.id.
Qed.

(** Index [len(self)] is out of range for every collection. *)
Lemma getitem_len {I} (self : Collection I) :
  Collection___getitem__ self (Z.of_nat (Collection___len__ self))
  = Raise IndexError.
Proof.
  destruct self as [d|d|e w i]; simpl;
    unfold DOSCollection___getitem__, DOSCollection___len__,
      GridDOSCollection___getitem__, GridDOSCollection___len__.
  1,2: by rewrite py_index_nat, lookup_ge_None_2 by lia.
  rewrite (py_index_nat w), lookup_ge_None_2 by lia. reflexivity.
Qed.

Lemma iter_from_list {I} (self : Collection I) (d : list (DOSData I)) k :
  (∀ i, Collection___getitem__ self (Z.of_nat i)
        = match d !! i with Some x => Ok x | None => Raise IndexError end) →
  Sequence___iter___from self (seq k (length d - k)) = Ok (drop k d).
Proof.
  intros Hget.
  remember (length d - k) as n eqn:Hn.
  revert k Hn. induction n as [|n IH]; intros k Hn; simpl.
  - by rewrite drop_ge by lia.
  - rewrite Hget.
    destruct (d !! k) as [x|] eqn:Hk.
    + rewrite (IH (S k)) by lia. simpl.
      by rewrite (drop_S _ _ _ Hk).
    + apply lookup_ge_None in Hk. lia.
Qed.

Lemma length_entries {I} (self : Collection I) :
  wf_collection self → length (entries self) = Collection___len__ self.
Proof.
  destruct self as [d|d|e w i]; simpl; try done.
  intros (_ & _ & Hi). rewrite length_zip_with. lia.
Qed.

(** Indexing a well-formed collection with a natural number reads its
    entries. *)
Lemma getitem_entries {I} (self : Collection I) (i : nat) :
  wf_collection self →
  Collection___getitem__ self (Z.of_nat i)
  = match entries self !! i with Some x => Ok x | None => Raise IndexError end.
Proof.
  intros Hwf. destruct self as [d|d|e w inf]; simpl;
    try apply py_index_nat.
  destruct Hwf as (He & Hw & Hi).
  unfold GridDOSCollection___getitem__.
  rewrite !py_index_nat, lookup_zip_with.
  destruct (w !! i) as [row|] eqn:Hrow; simpl; [|done].
  destruct (inf !! i) as [x|] eqn:Hx; simpl.
  - unfold GridDOSData___init__. rewrite He. simpl.
    rewrite Forall_lookup in Hw. specialize (Hw _ _ Hrow).
    rewrite decide_False by (intros ?; congruence).
    unfold GeneralDOSData___init__. simpl.
    by rewrite decide_False by (intros ?; congruence).
  - apply lookup_ge_None in Hx. apply lookup_lt_Some in Hrow. lia.
Qed.

(** Iterating a well-formed collection yields its entries. *)
Lemma iter_entries {I} (self : Collection I) :
  wf_collection self → Sequence___iter__ self = Ok (entries self).
Proof.
  intros Hwf. unfold Sequence___iter__.
  rewrite <- (length_entries self Hwf), <- (Nat.sub_0_r (length _)).
  apply (iter_from_list self (entries self) 0).
  intros i. by apply getitem_entries.
Qed.

Lemma iter_list_obj {I} (self : Collection I) :
  (∃ d, self = DOSCollection_obj d ∨ self = RawDOSCollection_obj d) →
  Sequence___iter__ self = Ok (entries self).
Proof.
  intros (d & [-> | ->]); unfold Sequence___iter__; simpl;
    rewrite <- (Nat.sub_0_r (length d));
    rewrite (iter_from_list _ d 0); try done;
    intros i; simpl; apply py_index_nat.
Qed.


(* ================================================================== *)
(** ** The constructors establish the class invariants *)
(* ================================================================== *)

Lemma np_assign_row_length (m : nat) (w row : list float) :
  np_assign_row m w = Ok row → length row = m.
Proof.
  unfold np_assign_row. case_decide as Hw.
  - by intros [= <-].
  - destruct w as [|x [|y w]]; try done.
    intros [= <-]. apply length_replicate.
Qed.

Lemma GridDOSCollection_init_loop_rows {I} (e : list float)
    (dos_list : list (DOSData I)) rows infos :
  GridDOSCollection___init___loop e dos_list = Ok (rows, infos) →
  Forall (fun row => length row = length e) rows
  ∧ length infos = length rows
  ∧ Forall (fun d => class_of d = GridDOSData) dos_list.
Proof.
  revert rows infos.
  induction dos_list as [|d l IH]; intros rows infos; simpl.
  - intros [= <- <-]. by repeat constructor.
  - case_bool_decide as Hcls; simpl; [|done].
    case_bool_decide as Hlen; simpl; [|done].
    intros Hr. apply bind_Ok in Hr as (close & _ & Hr).
    destruct close; simpl in Hr; [|done].
    apply bind_Ok in Hr as (row & Hrow & Hr).
    apply bind_Ok in Hr as ([rows' infos'] & Hl & [= <- <-]).
    apply IH in Hl as (? & ? & ?).
    apply np_assign_row_length in Hrow.
    split_and!; try by constructor. simpl. lia.
Qed.

(** A collection that a constructor returns for valid objects is
    well-formed. *)
Lemma Collection_construct_wf {I} (cls : coll_class)
    (dos_series : list (DOSData I)) (self : Collection I) :
  Forall valid_DOSData dos_series →
  Collection_construct cls dos_series = Ok self →
  wf_collection self ∧ type_of self = cls.
Proof.
  intros Hvalid. destruct cls; simpl.
  - by intros [= <-].
  - unfold RawDOSCollection___init__.
    rewrite iter_list_obj by eauto. simpl.
    destruct (forallb _ dos_series) eqn:Hall; [|done].
    intros [= <-]. split; [|done]. simpl.
    rewrite Forall_forall. intros x Hx%list_elem_of_In.
    rewrite forallb_forall in Hall. by apply (bool_decide_eq_true_1 _), Hall.
  - unfold GridDOSCollection___init__.
    intros Hr. apply bind_Ok in Hr as (first & Hfirst & Hr).
    apply bind_Ok in Hr as ([rows infos] & Hloop & [= <-]).
    apply GridDOSCollection_init_loop_rows in Hloop as (Hrows & Hinfos & Hgrid).
    split; [|done]. simpl. split_and!; try done.
    change 0%Z with (Z.of_nat 0) in Hfirst. rewrite py_index_nat in Hfirst.
    destruct dos_series as [|d l]; [done|]. simpl in Hfirst.
    injection Hfirst as ->.
    apply Forall_cons in Hvalid as [[_ Hv] _].
    apply Forall_cons in Hgrid as [Hcls _]. by apply Hv.
Qed.

(* ================================================================== *)
(** ** Construction and summation of collections: the error cases *)
(* ================================================================== *)

(** C10.  [GridDOSCollection([])] raises [IndexError]: the energy axis of
    the first element is read before the loop that checks classes and
    axes is entered, and [IndexError] is neither a [TypeError] nor a
    [ValueError]. *)
Theorem C10_GridDOSCollection_empty_IndexError :
  GridDOSCollection___init__ (I := Info) [] = Raise IndexError
  ∧ Collection_construct (I := Info) GridDOSCollection [] = Raise IndexError
  ∧ is_TypeError IndexError = false
  ∧ is_ValueError IndexError = false.
Proof. repeat split. Qed.

(** The loop itself accepts the empty list: the failure on the empty
    iterable is the read of [dos_list[0]] alone. *)
Lemma GridDOSCollection_loop_nil (e : list float) :
  GridDOSCollection___init___loop (I := Info) e [] = Ok ([], []).
Proof. reflexivity. Qed.

(** C3, as the code has it.  [sum_all] of a collection of length zero
    raises [IndexError] ("No data to sum"), and so does [total], which
    calls it first. *)
Theorem C3_sum_all_empty_IndexError (self : Collection Info) :
  Collection___len__ self = 0 →
  DOSCollection_sum_all self = Raise IndexError
  ∧ DOSCollection_total self = Raise IndexError.
Proof.
  intros Hlen. unfold DOSCollection_total, DOSCollection_sum_all.
  rewrite decide_True by done. done.
Qed.

Lemma C3_sum_all_empty_IndexError_witness :
  Collection___len__ (DOSCollection_obj (I := Info) []) = 0
  ∧ DOSCollection_sum_all (DOSCollection_obj []) = Raise IndexError
  ∧ DOSCollection_total (DOSCollection_obj []) = Raise IndexError.
Proof.
  split; [reflexivity|].
  apply (C3_sum_all_empty_IndexError (DOSCollection_obj [])). reflexivity.
Defined.

(** C3 as stated fails: the exception that [sum_all] raises on the empty
    generic collection is not of class [ValueError]. *)
Lemma C3_counterexample_not_ValueError :
  ∃ e, DOSCollection_sum_all (DOSCollection_obj []) = Raise e
       ∧ DOSCollection_total (DOSCollection_obj []) = Raise e
       ∧ is_ValueError e = false.
Proof. exists IndexError. repeat split. Qed.

(* ================================================================== *)
(** ** The combination of [RawDOSData] *)
(* ================================================================== *)

Lemma info_intersection_lookup (a b : Info) k v :
  info_intersection a b !! k = Some v ↔ a !! k = Some v ∧ b !! k = Some v.
Proof.
  unfold info_intersection. rewrite map_lookup_filter_Some. simpl. done.
Qed.

(** C7.  [RawDOSData.__add__] with a [RawDOSData] operand returns a
    [RawDOSData] whose energies and weights are those of the left operand
    followed by those of the right one, and whose info holds exactly the
    pairs that both operands hold; with any other operand it raises
    [TypeError]. *)
Theorem C7_RawDOSData_add (self : DOSData Info) (other : pyobject) :
  (is_RawDOSData other = false →
   RawDOSData___add__ self other = Raise TypeError)
  ∧ (∀ o, other = PyDOSData o → class_of o = RawDOSData →
     ∃ r, RawDOSData___add__ self other = Ok r
          ∧ class_of r = RawDOSData
          ∧ GeneralDOSData_get_energies r
            = GeneralDOSData_get_energies self ++ GeneralDOSData_get_energies o
          ∧ GeneralDOSData_get_weights r
            = GeneralDOSData_get_weights self ++ GeneralDOSData_get_weights o
          ∧ ∀ k v, info r !! k = Some v
                   ↔ info self !! k = Some v ∧ info o !! k = Some v).
Proof.
  split.
  - destruct other as [| | |o]; simpl; try done.
    intros H. by rewrite H.
  - intros o -> Hraw. simpl.
    rewrite bool_decide_eq_true_2 by done. simpl.
    eexists. split; [reflexivity|]. simpl.
    split_and!; try reflexivity.
    intros k v. apply info_intersection_lookup.
Qed.

Lemma C7_RawDOSData_add_witness :
  class_of raw_a2b1 = RawDOSData
  ∧ ∃ r, RawDOSData___add__ raw_a1b1 (PyDOSData raw_a2b1) = Ok r
         ∧ class_of r = RawDOSData
         ∧ GeneralDOSData_get_energies r = [1%float; 3%float]
         ∧ GeneralDOSData_get_weights r = [2%float; 4%float]
         ∧ ∀ k v, info r !! k = Some v
                  ↔ info raw_a1b1 !! k = Some v ∧ info raw_a2b1 !! k = Some v.
Proof.
  split; [reflexivity|].
  destruct (C7_RawDOSData_add raw_a1b1 (PyDOSData raw_a2b1)) as [_ H].
  apply (H raw_a2b1); reflexivity.
Defined.

Lemma RawDOSData_add_example_info :
  (λ r, match r with Ok d => Some (map_to_list (info d)) | Raise _ => None end)
    (RawDOSData___add__ raw_a1b1 (PyDOSData raw_a2b1)) = Some [("b", "1")].
Proof. vm_compute. reflexivity. Qed.

(* ================================================================== *)
(** ** The invariant [len(energies) == len(weights)] *)
(* ================================================================== *)

Lemma GeneralDOSData_init_Ok {I} cls energies weights (ia : info_arg I) d :
  GeneralDOSData___init__ cls energies weights ia = Ok d →
  ∃ i, DOSData___init__ ia = Ok i
       ∧ length weights = length energies
       ∧ d = mkDOSData cls (energies, weights) i.
Proof.
  unfold GeneralDOSData___init__. intros H.
  apply bind_Ok in H as (i & Hi & H).
  case_decide as Hlen; [done|]. simplify_eq.
  exists i. split_and!; try done; by apply dec_stable.
Qed.

Lemma GridDOSData_init_Ok {I} energies weights (ia : info_arg I) d :
  GridDOSData___init__ energies weights ia = Ok d →
  ∃ i, DOSData___init__ ia = Ok i
       ∧ evenly_spaced energies = Ok true
       ∧ length weights = length energies
       ∧ d = mkDOSData GridDOSData (energies, weights) i.
Proof.
  unfold GridDOSData___init__. intros H.
  apply bind_Ok in H as (close & Hclose & H).
  destruct close; simpl in H; [|done].
  case_decide; [done|].
  apply GeneralDOSData_init_Ok in H as (i & Hi & Hlen & ->).
  by exists i.
Qed.

(** Every constructor returns a valid object. *)
Lemma DOSData_construct_valid {I} cls energies weights (ia : info_arg I) d :
  DOSData_construct cls energies weights ia = Ok d → valid_DOSData d.
Proof.
  destruct cls; simpl; intros H.
  - apply GeneralDOSData_init_Ok in H as (i & ? & ? & ->).
    split; [done|]. simpl. done.
  - apply GridDOSData_init_Ok in H as (i & ? & ? & ? & ->).
    split; [done|]. simpl. done.
Qed.

Lemma RawDOSData_add_Ok (self o r : DOSData Info) :
  RawDOSData___add__ self (PyDOSData o) = Ok r →
  class_of o = RawDOSData
  ∧ r = mkDOSData RawDOSData (np_concatenate_axis1 (_data self) (_data o))
                  (info_intersection (info self) (info o)).
Proof.
  simpl. case_bool_decide; simpl; [|done].
  intros [= <-]. done.
Qed.

Lemma GridDOSData_add_Ok (self : DOSData Info) other r :
  GridDOSData___add__ self other = Ok r →
  ∃ o new_weights,
    other = PyDOSData o ∧ class_of o = GridDOSData
    ∧ GridDOSData___init__ (_data self).1 new_weights
        (InfoDict (info_intersection (info self) (info o))) = Ok r.
Proof.
  destruct other as [| | |o]; simpl; try done.
  case_bool_decide; simpl; [|done].
  case_bool_decide; simpl; [|done].
  intros Hr. apply bind_Ok in Hr as (close & _ & Hr).
  destruct close; simpl in Hr; [|done].
  apply bind_Ok in Hr as (ps & _ & Hr).
  eauto 10.
Qed.

Lemma DOSData_plus_invariant (a b d : DOSData Info) :
  len_invariant a → len_invariant b →
  DOSData_plus a (PyDOSData b) = Ok d → len_invariant d.
Proof.
  unfold DOSData_plus, len_invariant,
    GeneralDOSData_get_energies, GeneralDOSData_get_weights.
  intros Ha Hb. destruct (class_of a); intros H.
  - apply RawDOSData_add_Ok in H as [_ ->]. simpl.
    rewrite !length_app. lia.
  - apply GridDOSData_add_Ok in H as (o & w & _ & _ & H).
    apply GridDOSData_init_Ok in H as (i & _ & _ & Hlen & ->). simpl. done.
Qed.

Lemma sample_grid_Ok np_exp (d : DOSData Info) npts xmin xmax padding width
    smearing d' :
  outcome (DOSData_sample_grid np_exp d npts xmin xmax padding width smearing)
    = Ok d' →
  ∃ energies_grid weights_grid,
    GridDOSData___init__ energies_grid weights_grid (InfoDict (info d)) = Ok d'.
Proof.
  unfold DOSData_sample_grid, mbind, M_bind, lift. simpl.
  repeat (case_match; simpl; try done); eauto.
Qed.

(** C9.  Every [DOSData] object obtained by a constructor, by [copy], by
    [+] or by [sample_grid] has as many energies as weights. *)
Theorem C9_len_invariant (np_exp : float -> float) (d : DOSData Info) :
  produced np_exp d → len_invariant d.
Proof.
  induction 1 as [cls e w ia d H | d d' _ _ H | a b d _ IHa _ IHb H
                 | d npts xmin xmax padding width smearing d' _ _ H].
  - by apply DOSData_construct_valid in H as [? _].
  - unfold GeneralDOSData_copy in H.
    by apply DOSData_construct_valid in H as [? _].
  - by apply (DOSData_plus_invariant a b d).
  - apply sample_grid_Ok in H as (e & w & H).
    apply GridDOSData_init_Ok in H as (i & _ & _ & Hlen & ->). done.
Qed.

Lemma C9_len_invariant_witness :
  produced (fun x => x) raw_a1b1 ∧ len_invariant raw_a1b1.
Proof.
  assert (H : produced (fun x => x) raw_a1b1).
  { apply (produced_construct _ RawDOSData [1%float] [2%float]
             (InfoDict (info raw_a1b1))). reflexivity. }
  split; [exact H|]. exact (C9_len_invariant (fun x => x) raw_a1b1 H).
Defined.

(* ================================================================== *)
(** ** [sum_all] and [total] *)
(* ================================================================== *)

(** [sum_all] on the entries of a well-formed collection. *)
Lemma sum_all_entries (self : Collection Info) :
  wf_collection self →
  DOSCollection_sum_all self
  = match entries self with
    | [] => Raise IndexError
    | [x] => GeneralDOSData_copy x
    | items => reduce_plus items
    end.
Proof.
  intros Hwf. unfold DOSCollection_sum_all.
  rewrite <- (length_entries self Hwf).
  rewrite (iter_entries self Hwf).
  change 0%Z with (Z.of_nat 0). rewrite (getitem_entries self 0 Hwf).
  by destruct (entries self) as [|x [|y l]].
Qed.

(** The copy of a valid object is the object (with a dict of its own). *)
Lemma copy_valid (x : DOSData Info) :
  valid_DOSData x → GeneralDOSData_copy x = Ok x.
Proof.
  destruct x as [cls [e w] i]. intros [Hlen Hgrid].
  unfold len_invariant, GeneralDOSData_copy, GeneralDOSData_get_energies,
    GeneralDOSData_get_weights in *. simpl in *.
  destruct cls; simpl.
  - unfold RawDOSData___init__, GeneralDOSData___init__. simpl.
    by rewrite decide_False by (intros ?; congruence).
  - unfold GridDOSData___init__. rewrite Hgrid by done. simpl.
    rewrite decide_False by (intros ?; congruence).
    unfold GeneralDOSData___init__. simpl.
    by rewrite decide_False by (intros ?; congruence).
Qed.

(** Summing [RawDOSData] never fails: the fold concatenates the data and
    intersects the infos. *)
Lemma reduce_plus_from_raw (acc : DOSData Info) (items : list (DOSData Info)) :
  class_of acc = RawDOSData →
  Forall (fun x => class_of x = RawDOSData) items →
  ∃ r, reduce_plus_from acc items = Ok r
       ∧ class_of r = RawDOSData
       ∧ GeneralDOSData_get_energies r
         = GeneralDOSData_get_energies acc
           ++ concat (map GeneralDOSData_get_energies items)
       ∧ GeneralDOSData_get_weights r
         = GeneralDOSData_get_weights acc
           ++ concat (map GeneralDOSData_get_weights items)
       ∧ ∀ k v, info r !! k = Some v
                ↔ info acc !! k = Some v
                  ∧ Forall (fun x => info x !! k = Some v) items.
Proof.
  intros Hacc Hitems. revert acc Hacc.
  induction Hitems as [|y items Hy _ IH]; intros acc Hacc; simpl.
  - exists acc. rewrite !app_nil_r. split_and!; try done.
    intros k v. rewrite Forall_nil. tauto.
  - unfold DOSData_plus. rewrite Hacc. simpl.
    rewrite bool_decide_eq_true_2 by done. simpl.
    edestruct IH as (r & -> & Hr & He & Hw & Hi); [|exists r].
    { reflexivity. }
    split_and!; try done.
    + rewrite He. simpl. unfold GeneralDOSData_get_energies. simpl.
      by rewrite <- app_assoc.
    + rewrite Hw. simpl. unfold GeneralDOSData_get_weights. simpl.
      by rewrite <- app_assoc.
    + intros k v. rewrite Hi. simpl.
      rewrite info_intersection_lookup, Forall_cons. tauto.
Qed.

Lemma sum_all_RawDOSCollection (d : list (DOSData Info)) :
  d ≠ [] →
  Forall (fun x => class_of x = RawDOSData ∧ len_invariant x) d →
  ∃ s, DOSCollection_sum_all (RawDOSCollection_obj d) = Ok s
       ∧ class_of s = RawDOSData
       ∧ GeneralDOSData_get_energies s = concat (map GeneralDOSData_get_energies d)
       ∧ GeneralDOSData_get_weights s = concat (map GeneralDOSData_get_weights d)
       ∧ ∀ k v, info s !! k = Some v ↔ Forall (fun x => info x !! k = Some v) d.
Proof.
  intros Hne Hd.
  assert (Hraw : Forall (fun x => class_of x = RawDOSData) d).
  { eapply Forall_impl; [exact Hd|]. by intros x [? _]. }
  rewrite sum_all_entries by done. simpl.
  destruct d as [|x [|y l]]; [done| |].
  - apply Forall_cons in Hd as [[Hx Hlen] _].
    rewrite copy_valid.
    + exists x. simpl. rewrite !app_nil_r. split_and!; try done.
      intros k v. rewrite Forall_singleton. done.
    + split; [done|]. rewrite Hx. done.
  - apply Forall_cons in Hraw as [Hx Hraw].
    destruct (reduce_plus_from_raw x (y :: l) Hx Hraw)
      as (r & Hr & ? & ? & ? & Hi).
    exists r. split_and!; try done.
    intros k v. rewrite Hi, (Forall_cons _ x). done.
Qed.

(** C6, as the code has it.  For a non-empty collection, [total] returns
    what [sum_all] returns (the copy of the single entry, or the left
    fold of [+] over the entries; an exception of the summation
    propagates) with ['label'] set to ['Total'] in its info; the other
    pairs of the summed info stay. *)
Theorem C6_total_updates_label (self : Collection Info) :
  wf_collection self →
  Collection___len__ self ≠ 0 →
  DOSCollection_sum_all self
  = match entries self with
    | [x] => GeneralDOSData_copy x
    | items => reduce_plus items
    end
  ∧ DOSCollection_total self = label_total <$> DOSCollection_sum_all self
  ∧ ∀ s, DOSCollection_sum_all self = Ok s →
      ∃ d, DOSCollection_total self = Ok d
           ∧ class_of d = class_of s
           ∧ _data d = _data s
           ∧ info d = <["label" := "Total"]> (info s)
           ∧ info d !! "label" = Some "Total"
           ∧ ∀ k, k ≠ "label" → info d !! k = info s !! k.
Proof.
  intros Hwf Hlen. split_and!.
  - rewrite sum_all_entries by done.
    rewrite <- (length_entries self Hwf) in Hlen.
    by destruct (entries self) as [|x [|y l]].
  - unfold DOSCollection_total. by destruct (DOSCollection_sum_all self).
  - intros s Hs. exists (label_total s).
    unfold DOSCollection_total. rewrite Hs. simpl.
    split_and!; try done.
    + apply lookup_insert_eq.
    + intros k Hk. by apply lookup_insert_ne.
Qed.

Lemma C6_total_updates_label_witness :
  let self := DOSCollection_obj [raw_a1b1; raw_a2b1] in
  wf_collection self
  ∧ Collection___len__ self ≠ 0
  ∧ DOSCollection_sum_all self = reduce_plus [raw_a1b1; raw_a2b1]
  ∧ DOSCollection_total self = label_total <$> DOSCollection_sum_all self
  ∧ ∀ s, DOSCollection_sum_all self = Ok s →
      ∃ d, DOSCollection_total self = Ok d
           ∧ class_of d = class_of s
           ∧ _data d = _data s
           ∧ info d = <["label" := "Total"]> (info s)
           ∧ info d !! "label" = Some "Total"
           ∧ ∀ k, k ≠ "label" → info d !! k = info s !! k.
Proof.
  intros self.
  assert (Hwf : wf_collection self) by exact I.
  assert (Hlen : Collection___len__ self ≠ 0) by (simpl; lia).
  split; [exact Hwf|]. split; [exact Hlen|].
  exact (C6_total_updates_label self Hwf Hlen).
Defined.

(** C6 as stated fails: with a single entry of info [{'a': '1'}] the
    total keeps the pair and its info is not [{'label': 'Total'}]. *)
Lemma C6_counterexample_info_kept :
  ∃ d, DOSCollection_total (DOSCollection_obj [raw_a1]) = Ok d
       ∧ info d !! "a" = Some "1"
       ∧ info d ≠ {["label" := "Total"]}.
Proof.
  eexists. split; [reflexivity|]. split; [reflexivity|].
  intros H. apply (f_equal (fun m => m !! "a")) in H.
  vm_compute in H. discriminate.
Qed.

(* ================================================================== *)
(** ** Sampling *)
(* ================================================================== *)

(** A width above zero passes [_check_positive_width]. *)
Lemma positive_width_not_leb (width : float) :
  PrimFloat.ltb 0%float width = true → PrimFloat.leb width 0%float = false.
Proof.
  rewrite ltb_spec, leb_spec.
  change (Prim2SF 0) with (S754_zero false).
  destruct (Prim2SF width) as [s|s| |s m e]; try destruct s; cbn; congruence.
Qed.

Lemma check_positive_width_Ok (width : float) :
  PrimFloat.ltb 0%float width = true →
  DOSData__check_positive_width width = Ok tt.
Proof.
  intros H. unfold DOSData__check_positive_width.
  by rewrite positive_width_not_leb.
Qed.

Lemma delta_recognized np_exp x x0 width smearing :
  recognized smearing →
  ∃ delta, DOSData__delta np_exp x x0 width smearing = Ok delta
           ∧ length delta = length x.
Proof.
  intros H. unfold DOSData__delta.
  rewrite bool_decide_eq_true_2 by done.
  eexists. split; [reflexivity|]. by rewrite length_map.
Qed.

Section SamplingFacts.

Variable np_exp : float -> float.

(** With a recognized kernel and a weight for each stored energy the loop
    of [_sample] runs to its end and keeps the length of the grid. *)
Lemma sample_loop_Ok weights energies width smearing raw i weights_grid :
  recognized smearing →
  i + length raw ≤ length weights →
  length weights_grid = length energies →
  ∃ r, DOSData__sample_loop np_exp weights energies width smearing i raw
         weights_grid = Ok r
       ∧ length r = length energies.
Proof.
  intros Hs. revert i weights_grid.
  induction raw as [|raw_energy raw IH]; intros i weights_grid Hi Hg; simpl.
  - eauto.
  - destruct (delta_recognized np_exp energies raw_energy width smearing Hs)
      as (delta & -> & Hd). simpl in *.
    rewrite py_index_nat.
    destruct (weights !! i) as [w|] eqn:Hw.
    + simpl. apply IH; [lia|]. rewrite length_zip_with. lia.
    + apply lookup_ge_None in Hw. lia.
Qed.

(** The base-class [_sample] returns for every object that satisfies the
    invariant, every positive width and a recognized kernel. *)
Lemma DOSData_sample_Ok (self : DOSData Info) energies width smearing :
  len_invariant self →
  PrimFloat.ltb 0%float width = true →
  recognized smearing →
  ∃ base, DOSData__sample np_exp self energies width smearing = Ok base
          ∧ length base = length energies.
Proof.
  intros Hinv Hw Hs. unfold DOSData__sample.
  rewrite check_positive_width_Ok by done. simpl.
  apply sample_loop_Ok; [done| |by rewrite length_replicate].
  unfold len_invariant in Hinv. simpl. lia.
Qed.

(** [GridDOSData._sample] is the base-class result times the spacing of
    the first two stored energies, after the warning of
    [_check_spacing]; an exception of the base class propagates. *)
Lemma GridDOSData_sample_eq (self : DOSData Info) energies width smearing
    e0 e1 rest :
  GeneralDOSData_get_energies self = e0 :: e1 :: rest →
  GridDOSData__sample np_exp self energies width smearing
  = mkM (if PrimFloat.ltb width (2 * (e1 - e0))%float
         then [SmallBroadeningWidth] else [])
        (map (fun v => (v * (e1 - e0))%float)
           <$> DOSData__sample np_exp self energies width smearing).
Proof.
  unfold GeneralDOSData_get_energies. intros He.
  unfold GridDOSData__sample, GridDOSData__check_spacing. rewrite He.
  unfold mbind, M_bind, lift, warn, mret, M_ret. simpl.
  destruct (PrimFloat.ltb width (2 * (e1 - e0))%float); simpl;
    destruct (DOSData__sample np_exp self energies width smearing); done.
Qed.

(** The call [self._sample(...)] on a [GridDOSData] whose base-class
    accumulation is [base]. *)
Lemma sample_GridDOSData (self : DOSData Info) energies width smearing
    e0 e1 rest base :
  class_of self = GridDOSData →
  GeneralDOSData_get_energies self = e0 :: e1 :: rest →
  DOSData__sample np_exp self energies width smearing = Ok base →
  _sample np_exp self energies width smearing
  = mkM (if PrimFloat.ltb width (2 * (e1 - e0))%float
         then [SmallBroadeningWidth] else [])
        (Ok (map (fun v => (v * (e1 - e0))%float) base)).
Proof.
  intros Hcls He Hbase. unfold _sample. rewrite Hcls.
  rewrite (GridDOSData_sample_eq self energies width smearing e0 e1 rest He).
  by rewrite Hbase.
Qed.

(** C8.  For a [GridDOSData] with at least two grid points, a positive
    width and a recognized kernel, [_sample] returns the base-class
    accumulation times the spacing of the first two stored energies; it
    warns exactly when the width is below twice that spacing, and
    returns the same value then. *)
Theorem C8_GridDOSData_sample_scaled (self : DOSData Info) energies width
    smearing e0 e1 rest :
  class_of self = GridDOSData →
  len_invariant self →
  GeneralDOSData_get_energies self = e0 :: e1 :: rest →
  PrimFloat.ltb 0%float width = true →
  recognized smearing →
  let spacing := (e1 - e0)%float in
  ∃ base,
    DOSData__sample np_exp self energies width smearing = Ok base
    ∧ length base = length energies
    ∧ outcome (_sample np_exp self energies width smearing)
      = Ok (map (fun v => (v * spacing)%float) base)
    ∧ warnings (_sample np_exp self energies width smearing)
      = (if PrimFloat.ltb width (2 * spacing)%float
         then [SmallBroadeningWidth] else []).
Proof.
  intros Hcls Hinv He Hw Hs spacing.
  destruct (DOSData_sample_Ok self energies width smearing Hinv Hw Hs)
    as (base & Hbase & Hlen).
  exists base.
  rewrite (sample_GridDOSData self energies width smearing e0 e1 rest base)
    by done.
  done.
Qed.

End SamplingFacts.

Lemma C8_GridDOSData_sample_scaled_witness :
  class_of grid_01 = GridDOSData
  ∧ len_invariant grid_01
  ∧ PrimFloat.ltb 0%float 0.5%float = true
  ∧ recognized "Gauss"
  ∧ ∃ base,
      DOSData__sample (fun x => x) grid_01 [0%float; 1%float] 0.5%float "Gauss"
      = Ok base
      ∧ length base = 2
      ∧ outcome (_sample (fun x => x) grid_01 [0%float; 1%float] 0.5%float "Gauss")
        = Ok (map (fun v => (v * (1 - 0))%float) base)
      ∧ warnings (_sample (fun x => x) grid_01 [0%float; 1%float] 0.5%float "Gauss")
        = [SmallBroadeningWidth].
Proof.
  assert (H1 : class_of grid_01 = GridDOSData) by reflexivity.
  assert (H2 : len_invariant grid_01) by reflexivity.
  assert (H3 : PrimFloat.ltb 0%float 0.5%float = true) by reflexivity.
  assert (H4 : recognized "Gauss") by reflexivity.
  split_and!; try done.
  exact (C8_GridDOSData_sample_scaled (fun x => x) grid_01
           [0%float; 1%float] 0.5%float "Gauss" 0%float 1%float []
           H1 H2 eq_refl H3 H4).
Defined.

(** With a kernel name that is not recognized nothing is returned for a
    grid with data, whatever the width. *)
Lemma C8_counterexample_unrecognized_smearing :
  class_of grid_01 = GridDOSData
  ∧ valid_DOSData grid_01
  ∧ 2 ≤ length (GeneralDOSData_get_energies grid_01)
  ∧ PrimFloat.ltb 0%float 4%float = true
  ∧ DOSData__sample (fun x => x) grid_01 [0%float] 4%float "Lorentz"
    = Raise ValueError
  ∧ _sample (fun x => x) grid_01 [0%float] 4%float "Lorentz"
    = mkM [] (Raise ValueError).
Proof.
  split_and!; try first [reflexivity | simpl; lia].
  split; [reflexivity|]. intros _. reflexivity.
Qed.

Lemma mapM_result_Ok {A B} (f : A -> result B) (l : list A) (k : list B) :
  mapM f l = Ok k ↔ Forall2 (fun x y => f x = Ok y) l k.
Proof.
  revert k. induction l as [|x l IH]; intros k; simpl.
  - split.
    + intros [= <-]. constructor.
    + by intros ->%Forall2_nil_inv_l.
  - split.
    + intros H. apply bind_Ok in H as (y & Hy & H).
      apply bind_Ok in H as (k' & Hk' & [= <-]).
      constructor; [done|]. by apply IH.
    + intros (y & k' & Hy & Hk' & ->)%Forall2_cons_inv_l.
      rewrite Hy. simpl. apply IH in Hk'. by rewrite Hk'.
Qed.

Lemma outcome_bind {A B} (m : M A) (f : A -> M B) :
  outcome (m ≫= f) = outcome m ≫= (fun a => outcome (f a)).
Proof. unfold mbind, M_bind, result_bind. by destruct (outcome m). Qed.

(** The outcome of a traversal in [M] is the traversal of the
    outcomes. *)
Lemma mapM_outcome {A B} (f : A -> M B) (l : list A) :
  outcome (mapM f l) = mapM (fun x => outcome (f x)) l.
Proof.
  induction l as [|x l IH]; simpl; [done|].
  rewrite outcome_bind. destruct (outcome (f x)) as [y|e]; simpl; [|done].
  rewrite outcome_bind, IH. done.
Qed.

Lemma np_asarray_rows (rows : list (list float)) (n : nat) :
  rows ≠ [] →
  Forall (fun row => length row = n) rows →
  np_asarray rows = Ok (Array2 rows).
Proof.
  destruct rows as [|r rs]; [done|]. intros _ H.
  apply Forall_cons in H as [Hr Hrs]. simpl.
  rewrite (proj2 (forallb_forall _ _)); [done|].
  intros r' Hr'. apply bool_decide_eq_true.
  rewrite Forall_forall in Hrs. rewrite Hr. apply Hrs.
  by apply list_elem_of_In.
Qed.

Section CollectionSampling.

Variable np_exp : float -> float.

(** [DOSCollection.sample] stacks the results of the entries' own
    [_sample], in order; the first exception among them is its own. *)
Lemma DOSCollection_sample_outcome (self : Collection Info) energies width
    smearing :
  wf_collection self →
  outcome (DOSCollection_sample np_exp self energies width smearing)
  = rows ← mapM (fun data => outcome (_sample np_exp data energies width smearing))
               (entries self);
    np_asarray rows.
Proof.
  intros Hwf. unfold DOSCollection_sample.
  rewrite (iter_entries self Hwf).
  rewrite outcome_bind. simpl. rewrite outcome_bind, mapM_outcome. done.
Qed.

(** An entry that is samplable is sampled by its own [_sample] into a
    row as long as the energies. *)
Lemma samplable_sample_Ok (data : DOSData Info) energies width smearing :
  samplable data →
  PrimFloat.ltb 0%float width = true →
  recognized smearing →
  ∃ row, outcome (_sample np_exp data energies width smearing) = Ok row
         ∧ length row = length energies.
Proof.
  intros [Hinv Hgrid] Hw Hs.
  destruct (DOSData_sample_Ok np_exp data energies width smearing Hinv Hw Hs)
    as (base & Hbase & Hlen).
  destruct (class_of data) eqn:Hcls.
  - exists base. unfold _sample. rewrite Hcls. done.
  - specialize (Hgrid eq_refl).
    destruct (GeneralDOSData_get_energies data) as [|e0 [|e1 rest]] eqn:He;
      simpl in Hgrid; [lia..|].
    rewrite (sample_GridDOSData np_exp data energies width smearing
               e0 e1 rest base) by done.
    simpl. eexists. split; [done|]. by rewrite length_map.
Qed.

Lemma samplable_rows (items : list (DOSData Info)) energies width smearing :
  Forall samplable items →
  PrimFloat.ltb 0%float width = true →
  recognized smearing →
  ∃ rows,
    Forall2 (fun data row =>
               outcome (_sample np_exp data energies width smearing) = Ok row
               ∧ length row = length energies) items rows.
Proof.
  intros Hsam Hw Hs.
  induction Hsam as [|data l Hdata _ (rows & IH)].
  - exists []. constructor.
  - destruct (samplable_sample_Ok data energies width smearing Hdata Hw Hs)
      as (row & Hrow & Hlen).
    exists (row :: rows). by constructor.
Qed.

(** C1, as the code has it.  For a collection with at least one entry,
    all of whose entries [_sample] accepts (the invariant holds and a
    [GridDOSData] has two grid points or more), a positive width and a
    recognized kernel, [sample] returns a 2-D array with one row per
    entry, row [i] being the result of entry [i]'s own [_sample]. *)
Theorem C1_sample_rows (self : Collection Info) energies width smearing :
  wf_collection self →
  entries self ≠ [] →
  Forall samplable (entries self) →
  PrimFloat.ltb 0%float width = true →
  recognized smearing →
  ∃ rows,
    outcome (DOSCollection_sample np_exp self energies width smearing)
    = Ok (Array2 rows)
    ∧ ndim (Array2 rows) = 2
    ∧ length rows = Collection___len__ self
    ∧ Forall (fun row => length row = length energies) rows
    ∧ Forall2 (fun data row =>
                 outcome (_sample np_exp data energies width smearing) = Ok row)
              (entries self) rows.
Proof.
  intros Hwf Hne Hsam Hw Hs.
  destruct (samplable_rows (entries self) energies width smearing Hsam Hw Hs)
    as (rows & Hrows).
  assert (Hout : Forall2 (fun data row =>
      outcome (_sample np_exp data energies width smearing) = Ok row)
      (entries self) rows).
  { eapply Forall2_impl; [exact Hrows|]. by intros ?? [? _]. }
  assert (Hlens : Forall (fun row => length row = length energies) rows).
  { clear -Hrows. induction Hrows as [|???? [_ ?] _ IH]; constructor; done. }
  exists rows.
  rewrite DOSCollection_sample_outcome by done.
  rewrite (proj2 (mapM_result_Ok _ _ rows) Hout). simpl.
  assert (Hlen : length rows = length (entries self)).
  { symmetry. by eapply Forall2_length. }
  rewrite (np_asarray_rows rows (length energies)); [|by destruct rows, (entries self)|done].
  split_and!; try done.
  by rewrite Hlen, length_entries.
Qed.

End CollectionSampling.

Lemma C1_sample_rows_witness :
  let self := DOSCollection_obj [raw_a1b1; grid_01] in
  wf_collection self
  ∧ entries self ≠ []
  ∧ Forall samplable (entries self)
  ∧ PrimFloat.ltb 0%float 0.5%float = true
  ∧ recognized "Gauss"
  ∧ ∃ rows,
      outcome (DOSCollection_sample (fun x => x) self [0%float; 1%float]
                 0.5%float "Gauss")
      = Ok (Array2 rows)
      ∧ ndim (Array2 rows) = 2
      ∧ length rows = 2
      ∧ Forall (fun row => length row = 2) rows
      ∧ Forall2 (fun data row =>
                   outcome (_sample (fun x => x) data [0%float; 1%float]
                              0.5%float "Gauss") = Ok row)
                (entries self) rows.
Proof.
  intros self.
  assert (H1 : wf_collection self) by exact I.
  assert (H2 : entries self ≠ []) by done.
  assert (H3 : Forall samplable (entries self)).
  { repeat constructor; simpl; try done; lia. }
  assert (H4 : PrimFloat.ltb 0%float 0.5%float = true) by reflexivity.
  assert (H5 : recognized "Gauss") by reflexivity.
  split_and!; try done.
  exact (C1_sample_rows (fun x => x) self [0%float; 1%float] 0.5%float "Gauss"
           H1 H2 H3 H4 H5).
Defined.

(** C1 as stated fails: [GridDOSData([0.0], [1.0])] is an object the
    constructor returns, and a collection that holds it cannot be
    sampled, whatever the width and the kernel: [_check_spacing] reads a
    second grid point and raises [IndexError]. *)
Lemma C1_counterexample_single_point_grid :
  GridDOSData___init__ [0%float] [1%float] (InfoNone ∅) = Ok grid_0
  ∧ PrimFloat.ltb 0%float 0.5%float = true
  ∧ recognized "Gauss"
  ∧ ∀ np_exp,
      DOSCollection_sample np_exp (DOSCollection_obj [grid_0]) [0%float]
        0.5%float "Gauss"
      = mkM [] (Raise IndexError).
Proof. split_and!; try reflexivity. Qed.

(* ================================================================== *)
(** ** Indexing a [GridDOSCollection] and the info dicts *)
(* ================================================================== *)


(** [GridDOSCollection.__init__] keeps in [_info] the very dicts of the
    objects it is built from. *)
Lemma GridDOSCollection_init_loop_info {I} (e : list float)
    (dos_list : list (DOSData I)) rows infos :
  GridDOSCollection___init___loop e dos_list = Ok (rows, infos) →
  infos = map info dos_list ∧ length rows = length dos_list.
Proof.
  revert rows infos.
  induction dos_list as [|d l IH]; intros rows infos; simpl.
  - by intros [= <- <-].
  - repeat (case_match; simpl; try done).
    intros Hr. apply bind_Ok in Hr as (close & _ & Hr).
    destruct close; simpl in Hr; [|done].
    apply bind_Ok in Hr as (row & _ & Hr).
    apply bind_Ok in Hr as ([rows' infos'] & Hl & [= <- <-]).
    apply IH in Hl as [-> ?]. simpl. split; [done|lia].
Qed.




(* ================================================================== *)
(** ** Equality of collections *)
(* ================================================================== *)




















(** The two orders of a generic and a restricted collection with the
    same entries: both comparisons are [False]. *)
Lemma Collection_eq_generic_vs_raw :
  Collection_eq (DOSCollection_obj [raw_a1b1]) (RawDOSCollection_obj [raw_a1b1])
  = Ok false
  ∧ Collection_eq (RawDOSCollection_obj [raw_a1b1]) (DOSCollection_obj [raw_a1b1])
    = Ok false
  ∧ Collection_eq (DOSCollection_obj [raw_a1b1]) (DOSCollection_obj [raw_a1b1])
    = Ok true.
Proof. split_and!; reflexivity. Qed.

(** The method called by hand on the generic collection accepts the
    restricted one, an instance of its class; the operator [==] does not
    reach this call, it asks the subclass first. *)
Lemma DOSCollection_eq_method_generic_vs_raw :
  DOSCollection___eq__ (DOSCollection_obj [raw_a1b1])
    (RawDOSCollection_obj [raw_a1b1]) = Ok true.
Proof. reflexivity. Qed.

(* ================================================================== *)
(** ** The order [sorted] uses *)
(* ================================================================== *)

Lemma string_CmpOrder : CmpOrder String.compare.
Proof.
  split.
  - intros x y. split; [apply String.compare_eq_iff|].
    intros ->. pose proof (String.compare_antisym y y) as H.
    by destruct (String.compare y y).
  - intros x y. apply String.compare_antisym.
  - intros x y z. apply (StrictOrder_Transitive (R := String_as_OT.lt)).
Qed.

Section Lexicographic.

Context {A B : Type} (ca : A -> A -> comparison) (cb : B -> B -> comparison).
Hypothesis Ha : CmpOrder ca.
Hypothesis Hb : CmpOrder cb.

Lemma pair_lex_CmpOrder : CmpOrder (pair_lex ca cb).
Proof using Ha Hb.
  destruct Ha as [Ea Sa Ta], Hb as [Eb Sb Tb]. split.
  - intros [x1 x2] [y1 y2]. unfold pair_lex. simpl.
    destruct (ca x1 y1) eqn:H1.
    + apply Ea in H1 as ->. rewrite Eb. split; [by intros ->|by intros [= ->]].
    + split; [done|]. intros [= -> ->].
      by rewrite (proj2 (Ea y1 y1) eq_refl) in H1.
    + split; [done|]. intros [= -> ->].
      by rewrite (proj2 (Ea y1 y1) eq_refl) in H1.
  - intros [x1 x2] [y1 y2]. unfold pair_lex. simpl.
    rewrite (Sa x1 y1). destruct (ca x1 y1); simpl; [apply Sb|done..].
  - intros [x1 x2] [y1 y2] [z1 z2]. unfold pair_lex. simpl.
    destruct (ca x1 y1) eqn:H1; [|
      destruct (ca y1 z1) eqn:H2; [| |done] |done].
    + apply Ea in H1 as ->. destruct (ca y1 z1); [apply Tb|done..].
    + apply Ea in H2 as ->. by rewrite H1.
    + by rewrite (Ta _ _ _ H1 H2).
Qed.

Lemma list_compare_CmpOrder : CmpOrder (list_compare ca).
Proof using Ha.
  destruct Ha as [Ea Sa Ta]. split.
  - intros x. induction x as [|a x IH]; intros [|b y]; simpl; try done.
    destruct (ca a b) eqn:H1.
    + apply Ea in H1 as ->. rewrite IH. split; [by intros ->|by intros [= ->]].
    + split; [done|]. intros [= -> ->].
      by rewrite (proj2 (Ea b b) eq_refl) in H1.
    + split; [done|]. intros [= -> ->].
      by rewrite (proj2 (Ea b b) eq_refl) in H1.
  - intros x. induction x as [|a x IH]; intros [|b y]; simpl; try done.
    rewrite (Sa a b). destruct (ca a b); simpl; [apply IH|done..].
  - intros x. induction x as [|a x IH]; intros [|b y] [|c z]; simpl; try done.
    destruct (ca a b) eqn:H1; [|
      destruct (ca b c) eqn:H2; [| |done] |done].
    + apply Ea in H1 as ->. destruct (ca b c); [apply IH|done..].
    + apply Ea in H2 as ->. by rewrite H1.
    + by rewrite (Ta _ _ _ H1 H2).
Qed.

End Lexicographic.

Lemma pair_compare_CmpOrder : CmpOrder pair_compare.
Proof. apply (pair_lex_CmpOrder _ _ string_CmpOrder string_CmpOrder). Qed.

Lemma tuple_compare_CmpOrder : CmpOrder tuple_compare.
Proof. apply (list_compare_CmpOrder _ pair_compare_CmpOrder). Qed.

Section SortedFacts.

Context {A : Type} (cmp : A -> A -> comparison).
Hypothesis Hcmp : CmpOrder cmp.

Lemma cmp_le_total : Total (cmp_le cmp).
Proof using Hcmp.
  intros x y. unfold cmp_le. rewrite (cmp_antisym _ Hcmp x y).
  destruct (cmp x y); simpl; [left|left|right]; done.
Qed.

Lemma cmp_le_trans : Transitive (cmp_le cmp).
Proof using Hcmp.
  intros x y z. unfold cmp_le.
  destruct (cmp x y) eqn:H1; [|
    destruct (cmp y z) eqn:H2; [| |done] |done].
  - apply (cmp_eq_iff _ Hcmp) in H1 as ->. done.
  - apply (cmp_eq_iff _ Hcmp) in H2 as ->. by rewrite H1.
  - by rewrite (cmp_lt_trans _ Hcmp _ _ _ H1 H2).
Qed.

Lemma py_sorted_Permutation (l : list A) : py_sorted cmp l ≡ₚ l.
Proof. apply merge_sort_Permutation. Qed.

(** A sorted list without repetition ascends strictly. *)
Lemma py_sorted_strict (l : list A) :
  NoDup l → StronglySorted (cmp_lt cmp) (py_sorted cmp l).
Proof using Hcmp.
  intros Hnd.
  assert (Hs : StronglySorted (cmp_le cmp) (py_sorted cmp l)).
  { apply StronglySorted_merge_sort; [apply cmp_le_trans|apply cmp_le_total]. }
  assert (Hnd' : NoDup (py_sorted cmp l)).
  { by rewrite py_sorted_Permutation. }
  induction Hs as [|x k Hk IH Hx]; [constructor|].
  apply NoDup_cons in Hnd' as [Hxk Hnd'].
  constructor; [by apply IH|].
  rewrite Forall_forall in Hx |- *. intros y Hy.
  specialize (Hx y Hy). unfold cmp_le, cmp_lt in *.
  destruct (cmp x y) eqn:Hc; try done.
  apply (cmp_eq_iff _ Hcmp) in Hc as ->. done.
Qed.

End SortedFacts.

(* ================================================================== *)
(** ** [sum_by] *)
(* ================================================================== *)

Lemma query_issubset_spec (query i : Info) :
  query_issubset query i ↔ query ⊆ i.
Proof.
  unfold query_issubset. rewrite map_subseteq_spec. done.
Qed.

Lemma restricted_info_lookup (info_keys : list string) (i : Info) k v :
  restricted_info info_keys i !! k = Some v ↔ i !! k = Some v ∧ k ∈ info_keys.
Proof. unfold restricted_info. by rewrite map_lookup_filter_Some. Qed.

Lemma restricted_issubset (info_keys : list string) (i : Info) :
  query_issubset (restricted_info info_keys i) i.
Proof.
  intros k v Hk. by apply restricted_info_lookup in Hk as [? _].
Qed.

(** [dict(combo)] gives back the restricted sub-mapping. *)
Lemma list_to_map_combo_of (info_keys : list string) (i : Info) :
  list_to_map (combo_of info_keys i) = restricted_info info_keys i.
Proof.
  unfold combo_of.
  rewrite <- (list_to_map_to_list (restricted_info info_keys i)) at 2.
  apply list_to_map_proper.
  - rewrite py_sorted_Permutation. apply NoDup_fst_map_to_list.
  - apply py_sorted_Permutation.
Qed.

Lemma combo_of_eq_iff (info_keys : list string) (i j : Info) :
  combo_of info_keys i = combo_of info_keys j
  ↔ restricted_info info_keys i = restricted_info info_keys j.
Proof.
  split.
  - intros H. by rewrite <- !list_to_map_combo_of, H.
  - unfold combo_of. by intros ->.
Qed.

Lemma elem_of_unique_combos (info_keys : list string)
    (items : list (DOSData Info)) combo :
  combo ∈ unique_combos_of info_keys items
  ↔ ∃ d, d ∈ items ∧ combo_of info_keys (info d) = combo.
Proof.
  unfold unique_combos_of.
  rewrite py_sorted_Permutation, elem_of_remove_dups, list_elem_of_In, in_map_iff.
  split; intros (d & H1 & H2); exists d; rewrite list_elem_of_In in *; done.
Qed.

(** The groups come in the strictly ascending order of their tuples:
    one group per distinct restricted sub-mapping. *)
Lemma unique_combos_sorted (info_keys : list string)
    (items : list (DOSData Info)) :
  StronglySorted (cmp_lt tuple_compare) (unique_combos_of info_keys items).
Proof.
  apply py_sorted_strict; [apply tuple_compare_CmpOrder|].
  apply NoDup_remove_dups.
Qed.

Lemma filter_ext_elem {A} (P Q : A -> Prop) `{!∀ x, Decision (P x)}
    `{!∀ x, Decision (Q x)} (l : list A) :
  (∀ x, x ∈ l → P x ↔ Q x) → filter P l = filter Q l.
Proof.
  induction l as [|x l IH]; intros Hext; [done|].
  rewrite !filter_cons.
  rewrite IH by (intros y Hy; apply Hext; by right).
  pose proof (Hext x (list_elem_of_here x l)) as Hx.
  destruct (decide (P x)), (decide (Q x)); tauto.
Qed.

Lemma mapM_ext_elem {A B} (f g : A -> result B) (l : list A) :
  (∀ x, x ∈ l → f x = g x) → mapM f l = mapM g l.
Proof.
  induction l as [|x l IH]; intros H; simpl; [done|].
  rewrite (H x) by left. rewrite IH; [done|].
  intros y Hy. apply H. by right.
Qed.

(** Every member of a group is among the entries [select] returns for
    the group's sub-mapping. *)
Lemma group_selected (info_keys : list string) (items : list (DOSData Info))
    combo d :
  d ∈ group_of info_keys items combo → d ∈ selected_by items combo.
Proof.
  unfold group_of, selected_by. rewrite !list_elem_of_filter.
  intros [<- Hd]. split; [|done].
  rewrite list_to_map_combo_of. apply restricted_issubset.
Qed.

(** Without partial matches [select] returns exactly the group. *)
Lemma selected_group (info_keys : list string) (items : list (DOSData Info))
    combo :
  no_partial_match info_keys items →
  combo ∈ unique_combos_of info_keys items →
  selected_by items combo = group_of info_keys items combo.
Proof.
  intros Hno (d & Hd & <-)%elem_of_unique_combos.
  unfold selected_by, group_of. apply filter_ext_elem. intros d' Hd'.
  rewrite list_to_map_combo_of, combo_of_eq_iff. split.
  - by apply Hno.
  - intros <-. apply restricted_issubset.
Qed.

Lemma has_all_keys_no_partial_match (info_keys : list string)
    (items : list (DOSData Info)) :
  Forall (has_all_keys info_keys) items → no_partial_match info_keys items.
Proof.
  rewrite Forall_forall. intros Hall d d' Hd Hd' Hsub.
  apply map_eq. intros k.
  destruct (decide (k ∈ info_keys)) as [Hk|Hk].
  - destruct (Hall d Hd k Hk) as [v Hv].
    assert (H1 : restricted_info info_keys (info d) !! k = Some v)
      by by apply restricted_info_lookup.
    rewrite H1. apply restricted_info_lookup. split; [|done].
    by apply Hsub.
  - transitivity (@None string); [|symmetry];
      apply eq_None_not_Some; intros [v Hv];
      by apply restricted_info_lookup in Hv as [_ ?].
Qed.

(** The group sum of [sum_by] on the entries that [select] returns. *)
Lemma sum_group_selected (self : Collection Info) (items : list (DOSData Info))
    (combo : list (string * string)) :
  Sequence___iter__ self = Ok items →
  (list_to_map combo : Info) !! "self" = None →
  sum_group self combo = sum_members (type_of self) (selected_by items combo).
Proof.
  intros Hiter Hself. unfold sum_group, call_select.
  rewrite bool_decide_eq_false_2 by (rewrite Hself; by intros [? ?]).
  unfold DOSCollection_select. rewrite Hiter. simpl.
  fold (selected_by items combo). unfold sum_members.
  destruct (selected_by items combo) as [|x l]; [done|].
  by destruct (Collection_construct (type_of self) (x :: l)).
Qed.

Lemma combo_no_self (info_keys : list string) (i : Info) :
  "self" ∉ info_keys →
  (list_to_map (combo_of info_keys i) : Info) !! "self" = None.
Proof.
  intros Hself. rewrite list_to_map_combo_of.
  apply eq_None_not_Some. intros [v Hv].
  by apply restricted_info_lookup in Hv as [_ ?].
Qed.

(** [sum_by] sums, for each distinct restricted sub-mapping in sorted
    order, the entries that [select] returns for it. *)
Lemma sum_by_selected (self : Collection Info) (info_keys : list string)
    (items : list (DOSData Info)) :
  Sequence___iter__ self = Ok items →
  "self" ∉ info_keys →
  DOSCollection_sum_by self info_keys
  = (collection_data ←
       mapM (fun combo => sum_members (type_of self) (selected_by items combo))
            (unique_combos_of info_keys items);
     Collection_construct (type_of self) collection_data).
Proof.
  intros Hiter Hself. unfold DOSCollection_sum_by. rewrite Hiter. simpl.
  rewrite (mapM_ext_elem (sum_group self)
             (fun combo => sum_members (type_of self) (selected_by items combo)));
    [done|].
  intros combo (d & _ & <-)%elem_of_unique_combos.
  apply sum_group_selected; [done|]. by apply combo_no_self.
Qed.

Lemma sum_by_spec_selected (self : Collection Info) (info_keys : list string)
    (items : list (DOSData Info)) :
  Sequence___iter__ self = Ok items →
  no_partial_match info_keys items →
  sum_by_spec self info_keys
  = (collection_data ←
       mapM (fun combo => sum_members (type_of self) (selected_by items combo))
            (unique_combos_of info_keys items);
     Collection_construct (type_of self) collection_data).
Proof.
  intros Hiter Hno. unfold sum_by_spec. rewrite Hiter. simpl.
  rewrite (mapM_ext_elem
             (fun combo => sum_members (type_of self)
                             (group_of info_keys items combo))
             (fun combo => sum_members (type_of self) (selected_by items combo)));
    [done|].
  intros combo Hcombo. by rewrite (selected_group info_keys).
Qed.

Lemma RawDOSCollection_init_Ok (l : list (DOSData Info)) :
  Forall (fun x => class_of x = RawDOSData) l →
  RawDOSCollection___init__ l = Ok (RawDOSCollection_obj l).
Proof.
  intros Hl. unfold RawDOSCollection___init__.
  rewrite iter_list_obj by eauto. simpl.
  rewrite (proj2 (forallb_forall _ _)); [done|].
  intros x Hx. apply bool_decide_eq_true.
  rewrite Forall_forall in Hl. apply Hl. by apply list_elem_of_In.
Qed.

(** On a [RawDOSCollection] every group sum of [sum_by] returns, and so
    does [sum_by]. *)
Lemma sum_by_RawDOSCollection (d : list (DOSData Info))
    (info_keys : list string) :
  Forall (fun x => class_of x = RawDOSData ∧ len_invariant x) d →
  "self" ∉ info_keys →
  ∃ out,
    DOSCollection_sum_by (RawDOSCollection_obj d) info_keys
    = Ok (RawDOSCollection_obj out)
    ∧ Forall2 (fun combo s =>
                 DOSCollection_sum_all (RawDOSCollection_obj (selected_by d combo))
                 = Ok s)
              (unique_combos_of info_keys d) out.
Proof.
  intros Hd Hself.
  rewrite (sum_by_selected _ _ d) by (try apply iter_list_obj; eauto).
  assert (Hsel : ∀ combo, combo ∈ unique_combos_of info_keys d →
    ∃ s, sum_members RawDOSCollection (selected_by d combo) = Ok s
         ∧ DOSCollection_sum_all (RawDOSCollection_obj (selected_by d combo)) = Ok s
         ∧ class_of s = RawDOSData).
  { intros combo (x & Hx & <-)%elem_of_unique_combos.
    assert (Hin : x ∈ selected_by d (combo_of info_keys (info x))).
    { apply (group_selected info_keys). unfold group_of.
      by apply list_elem_of_filter. }
    assert (Hall : Forall (fun x => class_of x = RawDOSData ∧ len_invariant x)
                     (selected_by d (combo_of info_keys (info x)))).
    { unfold selected_by. rewrite Forall_forall in Hd |- *.
      intros y [_ Hy]%list_elem_of_filter. by apply Hd. }
    assert (Hraw : Forall (fun x => class_of x = RawDOSData)
                     (selected_by d (combo_of info_keys (info x)))).
    { eapply Forall_impl; [exact Hall|]. by intros ? [? _]. }
    destruct (sum_all_RawDOSCollection _ (ltac:(by intros E; rewrite E in Hin;
                                                  apply not_elem_of_nil in Hin))
                Hall) as (s & Hs & Hcls & _).
    exists s. split_and!; try done.
    unfold sum_members.
    destruct (selected_by d (combo_of info_keys (info x))) as [|y l] eqn:E.
    { by apply not_elem_of_nil in Hin. }
    simpl. rewrite RawDOSCollection_init_Ok by done. done. }
  revert Hsel. generalize (unique_combos_of info_keys d) as combos.
  intros combos Hsel.
  assert (Hout : ∃ out,
    Forall2 (fun combo s =>
       sum_members RawDOSCollection (selected_by d combo) = Ok s
       ∧ DOSCollection_sum_all (RawDOSCollection_obj (selected_by d combo)) = Ok s
       ∧ class_of s = RawDOSData) combos out).
  { induction combos as [|combo combos IH].
    - exists []. constructor.
    - destruct (Hsel combo) as (s & Hs); [left|].
      destruct IH as (out & Hout); [intros c Hc; apply Hsel; by right|].
      exists (s :: out). by constructor. }
  destruct Hout as (out & Hout). exists out.
  rewrite (proj2 (mapM_result_Ok _ combos out)).
  - simpl. rewrite RawDOSCollection_init_Ok.
    + split; [done|]. eapply Forall2_impl; [exact Hout|]. by intros ?? (_ & ? & _).
    + clear -Hout. induction Hout as [|???? (_ & _ & ?)]; by constructor.
  - simpl. eapply Forall2_impl; [exact Hout|]. by intros ?? (? & _).
Qed.

(** C4, as the code has it.  For grouping keys other than ['self'],
    [sum_by] makes one group per distinct sub-mapping of the infos
    restricted to the keys, in the sorted order of the sub-mappings'
    tuples, and every entry belongs to the group of its own restricted
    sub-mapping.  The entry returned for a group is the [sum_all] of the
    entries [select] returns for the sub-mapping: the entries whose info
    contains it, which include the group.  They are exactly the group,
    and [sum_by] is the grouping of the specification, when no entry's
    info contains the sub-mapping of another group, as when every entry
    has all the keys.  An exception of a group sum or of the final
    constructor propagates. *)
Theorem C4_sum_by_groups (self : Collection Info) (info_keys : list string) :
  wf_collection self →
  "self" ∉ info_keys →
  let items := entries self in
  let combos := unique_combos_of info_keys items in
  StronglySorted (cmp_lt tuple_compare) combos
  ∧ (∀ combo, combo ∈ combos
              ↔ ∃ d, d ∈ items ∧ combo_of info_keys (info d) = combo)
  ∧ (∀ d, d ∈ items →
          (combo_of info_keys (info d) ∈ combos)
          ∧ (d ∈ group_of info_keys items (combo_of info_keys (info d))))
  ∧ DOSCollection_sum_by self info_keys
    = (collection_data ←
         mapM (fun combo => sum_members (type_of self) (selected_by items combo))
              combos;
       Collection_construct (type_of self) collection_data)
  ∧ (∀ combo d, d ∈ selected_by items combo
                ↔ d ∈ items ∧ (list_to_map combo : Info) ⊆ info d)
  ∧ (∀ combo d, d ∈ group_of info_keys items combo → d ∈ selected_by items combo)
  ∧ (no_partial_match info_keys items →
     DOSCollection_sum_by self info_keys = sum_by_spec self info_keys)
  ∧ (Forall (has_all_keys info_keys) items →
     DOSCollection_sum_by self info_keys = sum_by_spec self info_keys).
Proof.
  intros Hwf Hself items combos.
  pose proof (iter_entries self Hwf) as Hiter.
  assert (Hspec : no_partial_match info_keys items →
    DOSCollection_sum_by self info_keys = sum_by_spec self info_keys).
  { intros Hno. rewrite (sum_by_selected self info_keys items) by done.
    by rewrite (sum_by_spec_selected self info_keys items). }
  split_and!.
  - apply unique_combos_sorted.
  - apply elem_of_unique_combos.
  - intros d Hd. split.
    + apply elem_of_unique_combos. eauto.
    + unfold group_of. by apply list_elem_of_filter.
  - by apply sum_by_selected.
  - intros combo d. unfold selected_by.
    rewrite list_elem_of_filter, query_issubset_spec. tauto.
  - apply group_selected.
  - exact Hspec.
  - intros Hall. by apply Hspec, has_all_keys_no_partial_match.
Qed.

Lemma C4_sum_by_groups_witness :
  wf_collection docstring_collection
  ∧ ("self" ∉ ["b"])
  ∧ Forall (has_all_keys ["b"]) (entries docstring_collection)
  ∧ StronglySorted (cmp_lt tuple_compare)
      (unique_combos_of ["b"] (entries docstring_collection))
  ∧ DOSCollection_sum_by docstring_collection ["b"]
    = sum_by_spec docstring_collection ["b"].
Proof.
  assert (H1 : wf_collection docstring_collection) by exact I.
  assert (H2 : "self" ∉ ["b"]).
  { intros H. apply list_elem_of_singleton in H. discriminate. }
  assert (H3 : Forall (has_all_keys ["b"]) (entries docstring_collection)).
  { repeat constructor; intros k ->%list_elem_of_singleton; by eexists. }
  destruct (C4_sum_by_groups docstring_collection ["b"] H1 H2)
    as (Hsorted & _ & _ & _ & _ & _ & _ & Hall).
  split_and!; [exact H1|exact H2|exact H3|exact Hsorted|exact (Hall H3)].
Defined.

(** The example of the specification: [sum_by('b')] on the three entries
    gives the sum of the first two, with info [{'b': '1'}], and the
    third, with info [{'a': '2', 'b': '2'}]. *)
Lemma sum_by_docstring_example :
  (λ r, match r with
        | Ok c => Some (map (fun d => (_data d, map_to_list (info d))) (entries c))
        | Raise _ => None
        end) (DOSCollection_sum_by docstring_collection ["b"])
  = Some [ (([1%float; 3%float], [2%float; 4%float]), [("b", "1")]);
           (([5%float], [6%float]), [("a", "2"); ("b", "2")]) ].
Proof. vm_compute. reflexivity. Qed.

(** C4 as stated fails.  With the entries of info [{'a': '1'}] and [{}]
    and the key ['a'], the group of the empty sub-mapping has the second
    entry only, but the entry [sum_by] returns for it is the sum of both
    entries: [select()] without criteria matches every entry. *)
Lemma C4_counterexample_missing_key :
  let self := DOSCollection_obj [raw_a1; raw_noinfo] in
  unique_combos_of ["a"] (entries self) = [[]; [("a", "1")]]
  ∧ group_of ["a"] (entries self) [] = [raw_noinfo]
  ∧ selected_by (entries self) [] = [raw_a1; raw_noinfo]
  ∧ (∃ out first s,
       DOSCollection_sum_by self ["a"] = Ok out
       ∧ Collection___getitem__ out 0 = Ok first
       ∧ _data first = ([1%float; 3%float], [2%float; 4%float])
       ∧ sum_members DOSCollection (group_of ["a"] (entries self) []) = Ok s
       ∧ _data s = ([3%float], [4%float])
       ∧ _data first ≠ _data s)
  ∧ DOSCollection_sum_by self ["a"] ≠ sum_by_spec self ["a"].
Proof.
  intros self. split_and!.
  - by vm_compute.
  - by vm_compute.
  - by vm_compute.
  - eexists _, _, _. split_and!; try by vm_compute.
  - intros H.
    apply (f_equal (fun r => match r with
                             | Ok c => (fun d => _data d) <$> entries c
                             | Raise _ => []
                             end)) in H.
    vm_compute in H. discriminate.
Qed.

(* ================================================================== *)
(** ** The combination of [GridDOSData] *)
(* ================================================================== *)

Lemma np_broadcast_same_length {A} (a b : list A) :
  length a = length b → np_broadcast a b = Ok (zip a b).
Proof. intros H. unfold np_broadcast. by rewrite decide_True. Qed.

Lemma map_zip_with_pair {A B C} (f : A -> B -> C) (a : list A) (b : list B) :
  map (fun p => f p.1 p.2) (zip a b) = zip_with f a b.
Proof.
  revert b. induction a as [|x a IH]; intros [|y b]; simpl; try done.
  by rewrite IH.
Qed.

(** X1.  [GridDOSData.__add__] returns exactly when the operand is a
    [GridDOSData] with as many energies, the two axes are close and the
    left axis passes the constructor's test; the result then is a valid
    [GridDOSData] on the left operand's axis, with the weights added
    entry by entry and the pairs common to both infos. *)
Theorem X1_GridDOSData_add_returns (self o : DOSData Info) :
  len_invariant self → len_invariant o →
  (∀ r, GridDOSData___add__ self (PyDOSData o) = Ok r →
     class_of o = GridDOSData
     ∧ length (GeneralDOSData_get_energies o)
       = length (GeneralDOSData_get_energies self)
     ∧ np_allclose (GeneralDOSData_get_energies self)
         (GeneralDOSData_get_energies o) = Ok true
     ∧ r = mkDOSData GridDOSData
             (GeneralDOSData_get_energies self,
              zip_with PrimFloat.add (GeneralDOSData_get_weights self)
                (GeneralDOSData_get_weights o))
             (info_intersection (info self) (info o))
     ∧ valid_DOSData r)
  ∧ (class_of o = GridDOSData →
     length (GeneralDOSData_get_energies o)
     = length (GeneralDOSData_get_energies self) →
     np_allclose (GeneralDOSData_get_energies self)
       (GeneralDOSData_get_energies o) = Ok true →
     evenly_spaced (GeneralDOSData_get_energies self) = Ok true →
     ∃ r, GridDOSData___add__ self (PyDOSData o) = Ok r).
Proof.
  unfold len_invariant, GeneralDOSData_get_energies, GeneralDOSData_get_weights.
  intros Hs Ho. split.
  - intros r. simpl.
    case_bool_decide as Hcls; simpl; [|done].
    case_bool_decide as Hlen; simpl; [|done].
    unfold GeneralDOSData_get_energies, GeneralDOSData_get_weights in *.
    intros Hr. apply bind_Ok in Hr as (close & Hclose & Hr).
    destruct close; simpl in Hr; [|done].
    rewrite np_broadcast_same_length in Hr by congruence. simpl in Hr.
    rewrite (map_zip_with_pair PrimFloat.add) in Hr.
    pose proof (DOSData_construct_valid GridDOSData _ _ _ _ Hr) as Hvalid.
    apply GridDOSData_init_Ok in Hr as (i & [= <-] & _ & _ & ->).
    done.
  - intros Hcls Hlen Hclose Heven. simpl.
    unfold GeneralDOSData_get_energies, GeneralDOSData_get_weights.
    rewrite bool_decide_eq_true_2 by done. simpl.
    rewrite bool_decide_eq_true_2 by done. simpl.
    rewrite Hclose. simpl.
    rewrite np_broadcast_same_length by congruence. simpl.
    unfold GridDOSData___init__. rewrite Heven. simpl.
    rewrite length_map, length_zip.
    rewrite decide_False by lia.
    unfold GeneralDOSData___init__. simpl.
    rewrite length_map, length_zip.
    rewrite decide_False by lia. eauto.
Qed.

Lemma X1_GridDOSData_add_returns_witness :
  len_invariant grid_01 ∧ len_invariant grid_01_b
  ∧ ∃ r, GridDOSData___add__ grid_01 (PyDOSData grid_01_b) = Ok r.
Proof.
  assert (H1 : len_invariant grid_01) by reflexivity.
  assert (H2 : len_invariant grid_01_b) by reflexivity.
  split; [exact H1|]. split; [exact H2|].
  destruct (X1_GridDOSData_add_returns grid_01 grid_01_b H1 H2) as [_ H].
  apply H; reflexivity.
Defined.

(** X2.  The failures of [GridDOSData.__add__], in the order of its
    tests: an operand that is not a [GridDOSData] raises [TypeError]
    whatever its data; a [GridDOSData] with another number of energies
    raises [ValueError]; so does one whose axis [np.allclose] rejects. *)
Theorem X2_GridDOSData_add_raises (self : DOSData Info) (other : pyobject) :
  (is_GridDOSData other = false →
   GridDOSData___add__ self other = Raise TypeError)
  ∧ (∀ o, other = PyDOSData o → class_of o = GridDOSData →
       length (GeneralDOSData_get_energies self)
       ≠ length (GeneralDOSData_get_energies o) →
       GridDOSData___add__ self other = Raise ValueError)
  ∧ (∀ o, other = PyDOSData o → class_of o = GridDOSData →
       length (GeneralDOSData_get_energies self)
       = length (GeneralDOSData_get_energies o) →
       np_allclose (GeneralDOSData_get_energies self)
         (GeneralDOSData_get_energies o) = Ok false →
       GridDOSData___add__ self other = Raise ValueError).
Proof.
  unfold GeneralDOSData_get_energies. split_and!.
  - destruct other as [| | |o]; simpl; try done. intros H. by rewrite H.
  - intros o -> Hcls Hlen. simpl.
    unfold GeneralDOSData_get_energies.
    rewrite bool_decide_eq_true_2 by done. simpl.
    by rewrite bool_decide_eq_false_2.
  - intros o -> Hcls Hlen Hclose. simpl.
    unfold GeneralDOSData_get_energies.
    rewrite bool_decide_eq_true_2 by done. simpl.
    rewrite bool_decide_eq_true_2 by done. simpl.
    by rewrite Hclose.
Qed.

Lemma X2_GridDOSData_add_raises_witness :
  GridDOSData___add__ grid_012 (PyDOSData raw_a1) = Raise TypeError
  ∧ GridDOSData___add__ grid_012 (PyDOSData grid_01) = Raise ValueError
  ∧ GridDOSData___add__ grid_012 (PyDOSData grid_013) = Raise ValueError.
Proof.
  destruct (X2_GridDOSData_add_raises grid_012 (PyDOSData raw_a1)) as [H1 _].
  destruct (X2_GridDOSData_add_raises grid_012 (PyDOSData grid_01))
    as (_ & H2 & _).
  destruct (X2_GridDOSData_add_raises grid_012 (PyDOSData grid_013))
    as (_ & _ & H3).
  split_and!.
  - by apply H1.
  - apply (H2 grid_01); try reflexivity. simpl. lia.
  - apply (H3 grid_013); reflexivity.
Defined.

(** X3.  [_interpret_smearing_args] with a non-zero default number of
    points: it answers "no resampling" ([0], [None]) exactly when [npts]
    is zero and no width is given; in every other case the width it
    returns is a float (what [plot] asserts), a given width and a
    non-zero [npts] being passed on unchanged. *)
Theorem X3_interpret_smearing_args (npts : Z) (width : option float)
    (default_npts : Z) (default_width : float) :
  default_npts ≠ 0%Z →
  let r := GridDOSData__interpret_smearing_args npts width default_npts
             default_width in
  (r = (0%Z, None) ↔ npts = 0%Z ∧ width = None)
  ∧ (r.1 ≠ 0%Z → is_Some r.2)
  ∧ (r.1 = 0%Z → r.2 = None)
  ∧ (npts ≠ 0%Z → r.1 = npts)
  ∧ (∀ w, width = Some w → r.2 = Some w).
Proof.
  intros Hd. unfold GridDOSData__interpret_smearing_args.
  destruct width as [w|]; destruct (Z.eqb_spec npts 0) as [->|Hn]; simpl;
    split_and!; try done; try (intros; by simplify_eq);
    try (split; [by intros [=]|by intros [? ?]]);
    try (intros _; by eexists).
Qed.

Lemma X3_interpret_smearing_args_witness :
  1000%Z ≠ 0%Z
  ∧ (GridDOSData__interpret_smearing_args 0 (Some 0.5%float) 1000 0.125%float).2
    = Some 0.5%float.
Proof.
  assert (H : 1000%Z ≠ 0%Z) by done.
  split; [exact H|].
  destruct (X3_interpret_smearing_args 0 (Some 0.5%float) 1000 0.125%float H)
    as (_ & _ & _ & _ & Hw).
  by apply Hw.
Defined.

(* ================================================================== *)
(** ** Sampling: rejected arguments, empty data, sums, grids *)
(* ================================================================== *)

Lemma np_linspace_length (start stop : float) (num : Z) (l : list float) :
  np_linspace start stop num = Ok l → (0 ≤ num)%Z ∧ length l = Z.to_nat num.
Proof.
  unfold np_linspace.
  destruct (Z.ltb_spec num 0) as [?|Hnum]; [done|].
  intros [= <-]. split; [done|].
  assert (Hset : ∀ (k : list float) x, length (set_last k x) = length k).
  { intros [|y k] x; [done|]. unfold set_last. by rewrite length_insert. }
  destruct (1 <? num)%Z; rewrite ?Hset; destruct (0 <? num - 1)%Z;
    try destruct (PrimFloat.eqb _ _); by rewrite !length_map, length_seq.
Qed.

Lemma evenly_spaced_nil : evenly_spaced [] = Raise IndexError.
Proof. reflexivity. Qed.

Section SamplingMore.

Variable np_exp : float -> float.

(** The loop of [_sample] keeps the length of the accumulator when the
    accumulator is as long as the grid. *)
Lemma sample_loop_length weights energies width smearing raw i acc r :
  length acc = length energies →
  DOSData__sample_loop np_exp weights energies width smearing i raw acc = Ok r →
  length r = length energies.
Proof.
  revert i acc. induction raw as [|e raw IH]; intros i acc Hacc; simpl.
  - by intros [= <-].
  - intros H. apply bind_Ok in H as (delta & Hdelta & H).
    apply bind_Ok in H as (w & _ & H).
    apply IH in H; [done|].
    unfold DOSData__delta in Hdelta. case_bool_decide; [|done].
    injection Hdelta as <-. rewrite length_zip_with, length_map. lia.
Qed.

Lemma sample_length (self : DOSData Info) energies width smearing row :
  outcome (_sample np_exp self energies width smearing) = Ok row →
  length row = length energies.
Proof.
  assert (Hbase : ∀ r, DOSData__sample np_exp self energies width smearing = Ok r →
                       length r = length energies).
  { intros r H. unfold DOSData__sample in H.
    apply bind_Ok in H as (_ & _ & H).
    apply sample_loop_length in H; [done|]. apply length_replicate. }
  unfold _sample. destruct (class_of self); simpl; [apply Hbase|].
  unfold GridDOSData__sample. rewrite outcome_bind.
  intros H. apply bind_Ok in H as (spacing & _ & H).
  rewrite outcome_bind in H. apply bind_Ok in H as (base & Hb & H).
  simpl in Hb, H. injection H as <-.
  rewrite length_map. by apply Hbase.
Qed.

(** X4.  A width that is not above zero is rejected with [ValueError] by
    the base-class [_sample] for every object, grid and kernel name; so
    it is by the call [self._sample] on a [RawDOSData] and on a
    [GridDOSData] with two grid points or more, while a [GridDOSData]
    with fewer fails earlier, in [_check_spacing], with [IndexError]. *)
Theorem X4_nonpositive_width_rejected (self : DOSData Info) energies width
    smearing :
  PrimFloat.leb width 0%float = true →
  DOSData__sample np_exp self energies width smearing = Raise ValueError
  ∧ (class_of self = RawDOSData →
     _sample np_exp self energies width smearing = mkM [] (Raise ValueError))
  ∧ (class_of self = GridDOSData →
     2 ≤ length (GeneralDOSData_get_energies self) →
     outcome (_sample np_exp self energies width smearing) = Raise ValueError)
  ∧ (class_of self = GridDOSData →
     length (GeneralDOSData_get_energies self) < 2 →
     _sample np_exp self energies width smearing = mkM [] (Raise IndexError)).
Proof.
  intros Hw.
  assert (Hbase : DOSData__sample np_exp self energies width smearing
                  = Raise ValueError).
  { unfold DOSData__sample, DOSData__check_positive_width. by rewrite Hw. }
  split_and!; [done| | |].
  - intros Hcls. unfold _sample. by rewrite Hcls, Hbase.
  - intros Hcls Hlen. unfold _sample. rewrite Hcls.
    destruct (GeneralDOSData_get_energies self) as [|e0 [|e1 rest]] eqn:He;
      simpl in Hlen; [lia..|].
    rewrite (GridDOSData_sample_eq np_exp self energies width smearing
               e0 e1 rest He).
    by rewrite Hbase.
  - intros Hcls Hlen. unfold _sample. rewrite Hcls.
    unfold GridDOSData__sample, GridDOSData__check_spacing.
    unfold GeneralDOSData_get_energies in Hlen.
    destruct (_data self).1 as [|e0 [|e1 rest]]; simpl in Hlen; try lia;
      reflexivity.
Qed.

(** X5.  Under a positive width the kernel name is looked at once per
    stored energy and not before: an object without data samples to
    zeros whatever the name, an object with data raises [ValueError] for
    a name that is not recognized, and returns an array as long as the
    grid for a recognized one. *)
Theorem X5_kernel_name_checked_per_energy (self : DOSData Info) energies
    width smearing :
  len_invariant self →
  PrimFloat.ltb 0%float width = true →
  (GeneralDOSData_get_energies self = [] →
   DOSData__sample np_exp self energies width smearing
   = Ok (replicate (length energies) 0%float))
  ∧ (GeneralDOSData_get_energies self ≠ [] → ¬ recognized smearing →
     DOSData__sample np_exp self energies width smearing = Raise ValueError)
  ∧ (recognized smearing →
     ∃ r, DOSData__sample np_exp self energies width smearing = Ok r
          ∧ length r = length energies).
Proof.
  intros Hinv Hw. unfold DOSData__sample.
  rewrite check_positive_width_Ok by done. simpl. split_and!.
  - by intros ->.
  - intros Hne Hs.
    destruct (GeneralDOSData_get_energies self) as [|e raw]; [done|]. simpl.
    unfold DOSData__delta. by rewrite bool_decide_eq_false_2.
  - intros Hs.
    destruct (DOSData_sample_Ok np_exp self energies width smearing Hinv Hw Hs)
      as (r & Hr & Hlen).
    unfold DOSData__sample in Hr.
    rewrite check_positive_width_Ok in Hr by done. eauto.
Qed.

Lemma sample_loop_app weights energies width smearing raw1 raw2 i acc :
  DOSData__sample_loop np_exp weights energies width smearing i (raw1 ++ raw2) acc
  = (acc' ← DOSData__sample_loop np_exp weights energies width smearing i raw1 acc;
     DOSData__sample_loop np_exp weights energies width smearing
       (i + length raw1) raw2 acc').
Proof.
  revert i acc. induction raw1 as [|e raw1 IH]; intros i acc; simpl.
  - by rewrite Nat.add_0_r.
  - destruct (DOSData__delta np_exp energies e width smearing); simpl; [|done].
    destruct (py_index weights (Z.of_nat i)); simpl; [|done].
    rewrite IH. by replace (S i + length raw1) with (i + S (length raw1)) by lia.
Qed.

Lemma sample_loop_weights_prefix w1 w2 energies width smearing raw i acc :
  i + length raw ≤ length w1 →
  DOSData__sample_loop np_exp (w1 ++ w2) energies width smearing i raw acc
  = DOSData__sample_loop np_exp w1 energies width smearing i raw acc.
Proof.
  revert i acc. induction raw as [|e raw IH]; intros i acc Hi; simpl in *; [done|].
  destruct (DOSData__delta np_exp energies e width smearing); simpl; [|done].
  rewrite !py_index_nat, lookup_app_l by lia.
  destruct (w1 !! i); simpl; [|done]. apply IH. lia.
Qed.

Lemma sample_loop_weights_shift w1 w2 energies width smearing raw i acc :
  DOSData__sample_loop np_exp (w1 ++ w2) energies width smearing
    (length w1 + i) raw acc
  = DOSData__sample_loop np_exp w2 energies width smearing i raw acc.
Proof.
  revert i acc. induction raw as [|e raw IH]; intros i acc; simpl; [done|].
  destruct (DOSData__delta np_exp energies e width smearing); simpl; [|done].
  rewrite !py_index_nat, lookup_app_r by lia.
  replace (length w1 + i - length w1) with i by lia.
  destruct (w2 !! i); simpl; [|done].
  replace (S (length w1 + i)) with (length w1 + S i) by lia. apply IH.
Qed.

(** X6.  Sampling the sum of two [RawDOSData]: the accumulation of the
    right operand's deltas is continued on the sample of the left
    operand, in this order of floating-point additions; an exception of
    either part is the exception of the whole. *)
Theorem X6_sample_of_raw_sum (a b r : DOSData Info) energies width smearing :
  len_invariant a →
  RawDOSData___add__ a (PyDOSData b) = Ok r →
  DOSData__sample np_exp r energies width smearing
  = (acc ← DOSData__sample np_exp a energies width smearing;
     DOSData__sample_loop np_exp (GeneralDOSData_get_weights b) energies width
       smearing 0 (GeneralDOSData_get_energies b) acc).
Proof.
  intros Ha Hr. apply RawDOSData_add_Ok in Hr as [_ ->].
  unfold DOSData__sample, len_invariant, GeneralDOSData_get_energies,
    GeneralDOSData_get_weights in *. simpl.
  destruct (DOSData__check_positive_width width); simpl; [|done].
  rewrite sample_loop_app.
  rewrite sample_loop_weights_prefix by (simpl; lia).
  destruct (DOSData__sample_loop np_exp (_data a).2 energies width smearing 0
              (_data a).1 _) as [acc|]; simpl; [|done].
  rewrite Ha. rewrite <- (Nat.add_0_r (length (_data a).2)).
  apply sample_loop_weights_shift.
Qed.

(** The parts of a successful [sample_grid]. *)
Lemma sample_grid_inv (self : DOSData Info) npts xmin xmax padding width
    smearing d' :
  outcome (DOSData_sample_grid np_exp self npts xmin xmax padding width smearing)
    = Ok d' →
  ∃ lo hi energies_grid weights_grid,
    np_linspace lo hi npts = Ok energies_grid
    ∧ outcome (_sample np_exp self energies_grid width smearing)
      = Ok weights_grid
    ∧ GridDOSData___init__ energies_grid weights_grid (InfoDict (info self))
      = Ok d'.
Proof.
  unfold DOSData_sample_grid. rewrite !outcome_bind. simpl.
  intros H. apply bind_Ok in H as (lo & _ & H).
  rewrite !outcome_bind in H. apply bind_Ok in H as (hi & _ & H).
  rewrite !outcome_bind in H. simpl in H.
  apply bind_Ok in H as (grid & Hgrid & H).
  rewrite !outcome_bind in H.
  apply bind_Ok in H as (wg & Hwg & H). simpl in H. eauto 10.
Qed.

(** X7.  What [sample_grid] returns is a valid [GridDOSData] with exactly
    [npts] energies and [npts] weights and the pairs of the sampled
    object's info; it never returns for [npts <= 0]. *)
Theorem X7_sample_grid_result (self : DOSData Info) npts xmin xmax padding
    width smearing d' :
  outcome (DOSData_sample_grid np_exp self npts xmin xmax padding width smearing)
    = Ok d' →
  (0 < npts)%Z
  ∧ class_of d' = GridDOSData
  ∧ length (GeneralDOSData_get_energies d') = Z.to_nat npts
  ∧ length (GeneralDOSData_get_weights d') = Z.to_nat npts
  ∧ info d' = info self
  ∧ valid_DOSData d'.
Proof.
  intros H.
  apply sample_grid_inv in H as (lo & hi & grid & wg & Hgrid & Hwg & Hd).
  pose proof (DOSData_construct_valid GridDOSData _ _ _ _ Hd) as Hvalid.
  apply np_linspace_length in Hgrid as [Hn Hlen].
  apply sample_length in Hwg.
  apply GridDOSData_init_Ok in Hd as (i & [= <-] & Heven & _ & ->).
  unfold GeneralDOSData_get_energies, GeneralDOSData_get_weights. simpl.
  split_and!; try done; try lia.
  destruct grid as [|g grid]; [by rewrite evenly_spaced_nil in Heven|].
  simpl in Hlen. lia.
Qed.

End SamplingMore.

Lemma X6_sample_of_raw_sum_witness :
  len_invariant raw_a1b1
  ∧ ∃ r, RawDOSData___add__ raw_a1b1 (PyDOSData raw_a2b1) = Ok r
         ∧ DOSData__sample (fun x => x) r [0%float] 0.5%float "Gauss"
           = (acc ← DOSData__sample (fun x => x) raw_a1b1 [0%float] 0.5%float
                      "Gauss";
              DOSData__sample_loop (fun x => x) [4%float] [0%float] 0.5%float
                "Gauss" 0 [3%float] acc).
Proof.
  assert (H1 : len_invariant raw_a1b1) by reflexivity.
  split; [exact H1|]. eexists. split; [reflexivity|].
  apply (X6_sample_of_raw_sum (fun x => x) raw_a1b1 raw_a2b1 _ [0%float] 0.5%float
           "Gauss" H1 eq_refl).
Defined.

Lemma X7_sample_grid_result_witness :
  ∃ d', outcome (DOSData_sample_grid (fun x => x) raw_a1 2 None None 3%float
                   0.5%float "Gauss") = Ok d'
        ∧ (0 < 2)%Z
        ∧ length (GeneralDOSData_get_energies d') = 2.
Proof.
  eexists. split; [reflexivity|].
  destruct (X7_sample_grid_result (fun x => x) raw_a1 2 None None 3%float
              0.5%float "Gauss" _ eq_refl) as (H1 & _ & H2 & _).
  split; [exact H1|exact H2].
Defined.

Lemma X4_nonpositive_width_rejected_witness :
  PrimFloat.leb 0%float 0%float = true
  ∧ DOSData__sample (fun x => x) raw_a1 [1%float] 0%float "Gauss"
    = Raise ValueError.
Proof.
  assert (H : PrimFloat.leb 0%float 0%float = true) by reflexivity.
  split; [exact H|].
  exact (proj1 (X4_nonpositive_width_rejected (fun x => x) raw_a1 [1%float]
                  0%float "Gauss" H)).
Defined.

Lemma X5_kernel_name_checked_per_energy_witness :
  len_invariant raw_empty
  ∧ PrimFloat.ltb 0%float 0.5%float = true
  ∧ DOSData__sample (fun x => x) raw_empty [1%float; 2%float] 0.5%float "Lorentz"
    = Ok [0%float; 0%float].
Proof.
  assert (H1 : len_invariant raw_empty) by reflexivity.
  assert (H2 : PrimFloat.ltb 0%float 0.5%float = true) by reflexivity.
  split; [exact H1|]. split; [exact H2|].
  exact (proj1 (X5_kernel_name_checked_per_energy (fun x => x) raw_empty
                  [1%float; 2%float] 0.5%float "Lorentz" H1 H2) eq_refl).
Defined.

(* ================================================================== *)
(** ** [copy] and the info dicts; labels *)
(* ================================================================== *)

Lemma DOSData_construct_data {I} cls energies weights (i : I) d :
  DOSData_construct cls energies weights (InfoDict i) = Ok d →
  d = mkDOSData cls (energies, weights) i.
Proof.
  destruct cls; simpl; intros H.
  - by apply GeneralDOSData_init_Ok in H as (? & [= <-] & _ & ->).
  - by apply GridDOSData_init_Ok in H as (? & [= <-] & _ & _ & ->).
Qed.

(** X8.  [copy] gives the new object a dict of its own with the pairs of
    the original: writing into the info of the copy leaves the info of
    the original as it was, and writing into the info of the original
    leaves the copy's. *)
Theorem X8_copy_info_independent (h h' : store) (self d' : DOSData loc)
    (new : loc) (m : Info) (key value : string) :
  h !! new = None →
  info_in h self = Some m →
  GeneralDOSData_copy_in h self new = Some (h', Ok d') →
  class_of d' = class_of self
  ∧ _data d' = _data self
  ∧ info d' ≠ info self
  ∧ info_in h' d' = Some m
  ∧ info_in h' self = Some m
  ∧ info_in (info_setitem h' d' key value) self = Some m
  ∧ info_in (info_setitem h' d' key value) d' = Some (<[key := value]> m)
  ∧ info_in (info_setitem h' self key value) d' = Some m.
Proof.
  unfold info_in, info_setitem, GeneralDOSData_copy_in.
  intros Hnew Hm. rewrite Hm. simpl. intros [= <- Hd].
  apply DOSData_construct_data in Hd as ->. simpl.
  assert (Hne : new ≠ info self) by (intros ->; congruence).
  split_and!; try done.
  - unfold GeneralDOSData_get_energies, GeneralDOSData_get_weights.
    by destruct (_data self).
  - by rewrite lookup_insert_eq.
  - by rewrite lookup_insert_ne.
  - rewrite lookup_alter_ne by done. by rewrite lookup_insert_ne.
  - by rewrite lookup_alter_eq, lookup_insert_eq.
  - rewrite lookup_alter_ne by done. by rewrite lookup_insert_eq.
Qed.

Lemma X8_copy_info_independent_witness :
  let h : store := {[1%positive := <["a" := "1"]> ∅]} in
  h !! 2%positive = None
  ∧ info_in h (raw_a1_at 1%positive) = Some (<["a" := "1"]> ∅)
  ∧ ∃ h', GeneralDOSData_copy_in h (raw_a1_at 1%positive) 2%positive
          = Some (h', Ok (raw_a1_at 2%positive))
          ∧ info_in (info_setitem h' (raw_a1_at 2%positive) "x" "y")
              (raw_a1_at 1%positive) = Some (<["a" := "1"]> ∅).
Proof.
  intros h.
  assert (H1 : h !! 2%positive = None) by reflexivity.
  assert (H2 : info_in h (raw_a1_at 1%positive) = Some (<["a" := "1"]> ∅))
    by reflexivity.
  split; [exact H1|]. split; [exact H2|].
  eexists. split; [reflexivity|].
  destruct (X8_copy_info_independent h _ (raw_a1_at 1%positive)
              (raw_a1_at 2%positive) 2%positive _ "x" "y" H1 H2 eq_refl)
    as (_ & _ & _ & _ & _ & H & _).
  exact H.
Defined.

Lemma list_find_label (items : list (string * string)) (m : Info) v :
  NoDup items.*1 →
  list_to_map items = m →
  m !! "label" = Some v →
  ∃ i, list_find (fun kv => kv.1 = "label") items = Some (i, ("label", v)).
Proof.
  intros Hnd <- Hv.
  apply elem_of_list_to_map in Hv; [|done].
  apply list_elem_of_lookup in Hv as [j Hj].
  destruct (list_find (fun kv => kv.1 = "label") items) as [[i [k w]]|] eqn:Hf.
  - apply list_find_Some in Hf as (Hi & Hk & _). simpl in Hk. subst k.
    exists i. repeat f_equal.
    assert (Hw : (list_to_map items : Info) !! "label" = Some w).
    { apply elem_of_list_to_map; [done|]. apply list_elem_of_lookup. eauto. }
    assert (Hv' : (list_to_map items : Info) !! "label" = Some v).
    { apply elem_of_list_to_map; [done|]. apply list_elem_of_lookup. eauto. }
    congruence.
  - apply list_find_None in Hf. rewrite Forall_forall in Hf.
    exfalso. apply (Hf ("label", v)); [|done].
    apply list_elem_of_lookup. eauto.
Qed.

(** X9.  The legend label of a total: whatever pairs the summed info
    kept and in whatever order the dict lists them, [label_from_info]
    of the info of [total()] is ['Total']. *)
Theorem X9_label_of_total (self : Collection Info) (d : DOSData Info)
    (items : list (string * string)) :
  DOSCollection_total self = Ok d →
  NoDup items.*1 →
  list_to_map items = info d →
  DOSData_label_from_info items = "Total".
Proof.
  intros Htotal Hnd Hitems.
  unfold DOSCollection_total in Htotal.
  apply bind_Ok in Htotal as (s & _ & [= <-]).
  destruct (list_find_label items _ "Total" Hnd Hitems) as (i & Hf).
  { simpl. apply lookup_insert_eq. }
  unfold DOSData_label_from_info. by rewrite Hf.
Qed.

Lemma X9_label_of_total_witness :
  ∃ d, DOSCollection_total (DOSCollection_obj [raw_a1]) = Ok d
       ∧ NoDup [("a", "1"); ("label", "Total")].*1
       ∧ list_to_map [("a", "1"); ("label", "Total")] = info d
       ∧ DOSData_label_from_info [("a", "1"); ("label", "Total")] = "Total".
Proof.
  eexists. split; [reflexivity|].
  assert (H2 : NoDup [("a", "1"); ("label", "Total")].*1).
  { simpl. apply NoDup_cons. split; [|apply NoDup_singleton].
    intros H%list_elem_of_singleton. discriminate. }
  assert (H3 : list_to_map [("a", "1"); ("label", "Total")]
               = info (label_total raw_a1)).
  { apply map_eq. intros k. simpl.
    destruct (decide (k = "a")) as [->|Ha]; [done|].
    destruct (decide (k = "label")) as [->|Hl]; [done|].
    by rewrite !lookup_insert_ne. }
  split; [exact H2|]. split; [exact H3|].
  exact (X9_label_of_total (DOSCollection_obj [raw_a1]) _ _ eq_refl H2 H3).
Defined.

(** Without a label the pairs are listed in the order of the dict. *)
Lemma label_from_info_without_label :
  DOSData_label_from_info [("a", "1"); ("b", "2")] = "a: 1; b: 2"
  ∧ DOSData_label_from_info [] = "".
Proof. split; reflexivity. Qed.

(* ================================================================== *)
(** ** Collections built from entries of a collection *)
(* ================================================================== *)

Lemma Collection_construct_len {I} (cls : coll_class)
    (l : list (DOSData I)) (c : Collection I) :
  Collection_construct cls l = Ok c →
  type_of c = cls ∧ Collection___len__ c = length l.
Proof.
  destruct cls; simpl.
  - by intros [= <-].
  - unfold RawDOSCollection___init__. rewrite iter_list_obj by eauto. simpl.
    destruct (forallb _ l); [|done]. by intros [= <-].
  - unfold GridDOSCollection___init__.
    intros H. apply bind_Ok in H as (first & _ & H).
    apply bind_Ok in H as ([rows infos] & Hloop & [= <-]).
    apply GridDOSCollection_init_loop_info in Hloop as [_ ?]. done.
Qed.

(** A collection that a constructor returns has an axis close to
    itself. *)
Lemma Collection_construct_axis_close {I} (cls : coll_class)
    (l : list (DOSData I)) (c : Collection I) :
  Collection_construct cls l = Ok c → axis_close c.
Proof.
  destruct cls; simpl.
  - by intros [= <-].
  - unfold RawDOSCollection___init__. rewrite iter_list_obj by eauto. simpl.
    destruct (forallb _ l); [|done]. by intros [= <-].
  - unfold GridDOSCollection___init__.
    intros H. apply bind_Ok in H as (first & Hfirst & H).
    apply bind_Ok in H as ([rows infos] & Hloop & [= <-]). simpl.
    change 0%Z with (Z.of_nat 0) in Hfirst. rewrite py_index_nat in Hfirst.
    destruct l as [|d l]; [done|]. simpl in Hfirst. injection Hfirst as ->.
    simpl in Hloop.
    case_bool_decide; simpl in Hloop; [|done].
    case_bool_decide; simpl in Hloop; [|done].
    apply bind_Ok in Hloop as (close & Hclose & Hloop).
    by destruct close.
Qed.

Lemma entries_grid_elem {I} e w (i : list I) (d : DOSData I) :
  wf_collection (GridDOSCollection_obj e w i) →
  d ∈ entries (GridDOSCollection_obj e w i) →
  class_of d = GridDOSData ∧ (_data d).1 = e ∧ length (_data d).2 = length e.
Proof.
  intros (_ & Hw & _) Hd. simpl in Hd.
  apply list_elem_of_lookup in Hd as [k Hk].
  rewrite lookup_zip_with in Hk.
  destruct (w !! k) as [row|] eqn:Hrow; simpl in Hk; [|done].
  destruct (i !! k) as [inf|]; simpl in Hk; [|done].
  injection Hk as <-. simpl.
  rewrite Forall_lookup in Hw. by rewrite (Hw _ _ Hrow).
Qed.

Lemma grid_loop_uniform {I} (e : list float) (l : list (DOSData I)) :
  np_allclose e e = Ok true →
  Forall (fun d => class_of d = GridDOSData ∧ (_data d).1 = e
                   ∧ length (_data d).2 = length e) l →
  GridDOSCollection___init___loop e l
  = Ok (map (fun d => (_data d).2) l, map info l).
Proof.
  intros Hclose. induction 1 as [|d l (Hcls & He & Hlen) _ IH]; simpl; [done|].
  unfold GeneralDOSData_get_energies, GeneralDOSData_get_weights.
  rewrite bool_decide_eq_true_2 by done. simpl.
  rewrite He, bool_decide_eq_true_2 by done. simpl.
  rewrite Hclose. simpl.
  unfold np_assign_row. rewrite decide_True by done. simpl.
  by rewrite IH.
Qed.

Lemma zip_with_rebuild {I} (e : list float) (l : list (DOSData I)) :
  Forall (fun d => class_of d = GridDOSData ∧ (_data d).1 = e
                   ∧ length (_data d).2 = length e) l →
  zip_with (fun row inf => mkDOSData GridDOSData (e, row) inf)
    (map (fun d => (_data d).2) l) (map info l) = l.
Proof.
  induction 1 as [|x k (Hc & Hx & _) _ IH]; simpl; [done|].
  rewrite IH. destruct x as [cls [e' row] i]. simpl in *. by subst.
Qed.

(** Building a collection of the class of [self] from entries of [self]
    (at least one for a [GridDOSCollection]) returns, and the new
    collection has these entries. *)
Lemma construct_from_entries {I} (self : Collection I)
    (l : list (DOSData I)) :
  wf_collection self → axis_close self →
  entries_of self l →
  (type_of self = GridDOSCollection → l ≠ []) →
  ∃ c, Collection_construct (type_of self) l = Ok c
       ∧ entries c = l
       ∧ wf_collection c ∧ axis_close c
       ∧ type_of c = type_of self.
Proof.
  intros Hwf Hclose Hl Hne. unfold entries_of in Hl.
  destruct self as [d|d|e w inf]; simpl in *.
  - eexists. by split_and!.
  - exists (RawDOSCollection_obj l).
    assert (Hraw : Forall (fun x => class_of x = RawDOSData) l).
    { rewrite Forall_forall in Hwf, Hl |- *. intros x Hx. by apply Hwf, Hl. }
    unfold RawDOSCollection___init__. rewrite iter_list_obj by eauto. simpl.
    rewrite (proj2 (forallb_forall _ _)); [by split_and!|].
    intros x Hx%list_elem_of_In. apply bool_decide_eq_true.
    rewrite Forall_forall in Hraw. by apply Hraw.
  - assert (Hu : Forall (fun d => class_of d = GridDOSData ∧ (_data d).1 = e
                                  ∧ length (_data d).2 = length e) l).
    { rewrite Forall_forall in Hl |- *. intros x Hx.
      apply (entries_grid_elem e w inf); [done|]. by apply Hl. }
    destruct l as [|first l]; [by destruct Hne|].
    pose proof (Forall_inv Hu) as (_ & He & _).
    exists (GridDOSCollection_obj e (map (fun d => (_data d).2) (first :: l))
              (map info (first :: l))).
    unfold GridDOSCollection___init__.
    change 0%Z with (Z.of_nat 0). rewrite py_index_nat. simpl.
    unfold GeneralDOSData_get_energies. rewrite He.
    pose proof (grid_loop_uniform e (first :: l) Hclose Hu) as Hloop.
    simpl in Hloop. unfold GeneralDOSData_get_energies in Hloop.
    rewrite He in Hloop. rewrite Hloop. simpl.
    split_and!; try done.
    + apply (zip_with_rebuild e (first :: l) Hu).
    + destruct Hwf as (Heven & _ & _). done.
    + change (Forall (fun row => length row = length e)
                (map (fun d => (_data d).2) (first :: l))).
      clear -Hu. induction Hu as [|x k (_ & _ & Hx) _ IH]; simpl;
        by constructor.
    + by rewrite !length_map.
Qed.

Lemma entries_of_filter {I} (self : Collection I) (P : DOSData I -> Prop)
    `{!∀ x, Decision (P x)} :
  entries_of self (filter P (entries self)).
Proof.
  unfold entries_of. rewrite Forall_forall.
  by intros x [_ Hx]%list_elem_of_filter.
Qed.


(* ================================================================== *)
(** ** [select], [select_not] and [+] on collections *)
(* ================================================================== *)

(** The common shape of [select] and [select_not]: the entries that
    satisfy [P], as a collection of the same class, or [None]. *)
Lemma narrow_entries (self : Collection Info) (P : DOSData Info -> Prop)
    `{!∀ x, Decision (P x)} :
  wf_collection self → axis_close self →
  ∃ s, match filter P (entries self) with
       | [] => Ok None
       | _ => Some <$> Collection_construct (type_of self)
                         (filter P (entries self))
       end = Ok s
       ∧ entries_opt s = filter P (entries self)
       ∧ (s = None ↔ filter P (entries self) = [])
       ∧ (∀ c, s = Some c →
               type_of c = type_of self ∧ wf_collection c ∧ axis_close c).
Proof.
  intros Hwf Hclose.
  destruct (filter P (entries self)) as [|x l] eqn:Hf.
  - exists None. by split_and!.
  - destruct (construct_from_entries self (x :: l) Hwf Hclose)
      as (c & Hc & Hentries & Hwfc & Hclosec & Hty).
    { rewrite <- Hf. apply entries_of_filter. }
    { done. }
    exists (Some c). rewrite Hc. simpl. split_and!; try done.
    intros c' [= <-]. done.
Qed.

(** The bodies of [select] and [select_not] split the entries in two. *)
Lemma select_partition_body (self : Collection Info) (query : Info) :
  wf_collection self → axis_close self →
  ∃ s n,
    DOSCollection_select self query = Ok s
    ∧ DOSCollection_select_not self query = Ok n
    ∧ entries_opt s
      = filter (fun d => query_issubset query (info d)) (entries self)
    ∧ entries_opt n
      = filter (fun d => ¬ query_issubset query (info d)) (entries self)
    ∧ entries_opt s ++ entries_opt n ≡ₚ entries self
    ∧ (s = None ↔ Forall (fun d => ¬ query_issubset query (info d))
                    (entries self))
    ∧ (∀ c, s = Some c ∨ n = Some c →
            type_of c = type_of self ∧ wf_collection c).
Proof.
  intros Hwf Hclose.
  destruct (narrow_entries self (fun d => query_issubset query (info d))
              Hwf Hclose) as (s & Hs & Hse & Hsn & Hsc).
  destruct (narrow_entries self (fun d => ¬ query_issubset query (info d))
              Hwf Hclose) as (n & Hn & Hne & _ & Hnc).
  exists s, n.
  unfold DOSCollection_select, DOSCollection_select_not.
  rewrite (iter_entries self Hwf). simpl.
  split_and!; try done.
  - rewrite Hse, Hne. apply filter_app_complement.
  - rewrite Hsn. split.
    + intros Hnil. rewrite Forall_forall. intros d Hd HP.
      by apply (filter_nil_not_elem_of _ _ d Hnil).
    + intros Hall.
      destruct (filter _ (entries self)) as [|x l] eqn:Hf; [done|].
      assert (Hx : x ∈ filter (fun d => query_issubset query (info d))
                         (entries self)) by (rewrite Hf; left).
      apply list_elem_of_filter in Hx as [HP Hx].
      rewrite Forall_forall in Hall. by destruct (Hall x Hx).
  - intros c [->| ->];
      [by destruct (Hsc c eq_refl) as (? & ? & _)
      |by destruct (Hnc c eq_refl) as (? & ? & _)].
Qed.

(** X10.  [select] and [select_not], called with keyword criteria,
    split a collection in two.  A criterion named [self] cannot be
    passed: both calls raise [TypeError].  With any other criteria both
    return on a well-formed collection, [select] with the entries whose
    info has every pair of the criteria and [select_not] with the other
    entries, each in the order of the collection and as a collection of
    the same class, [None] standing for no entry; together they hold
    every entry once. *)
Theorem X10_select_partition (self : Collection Info) (query : Info) :
  wf_collection self → axis_close self →
  (is_Some (query !! "self") →
   call_select self query = Raise TypeError
   ∧ call_select_not self query = Raise TypeError)
  ∧ (query !! "self" = None →
     ∃ s n,
       call_select self query = Ok s
       ∧ call_select_not self query = Ok n
       ∧ entries_opt s
         = filter (fun d => query_issubset query (info d)) (entries self)
       ∧ entries_opt n
         = filter (fun d => ¬ query_issubset query (info d)) (entries self)
       ∧ entries_opt s ++ entries_opt n ≡ₚ entries self
       ∧ (s = None ↔ Forall (fun d => ¬ query_issubset query (info d))
                       (entries self))
       ∧ (∀ c, s = Some c ∨ n = Some c →
               type_of c = type_of self ∧ wf_collection c)).
Proof.
  intros Hwf Hclose. unfold call_select, call_select_not. split.
  - intros Hself. by rewrite bool_decide_eq_true_2.
  - intros Hself.
    rewrite bool_decide_eq_false_2 by (rewrite Hself; by intros [? ?]).
    by apply select_partition_body.
Qed.

Lemma X10_select_partition_witness :
  wf_collection docstring_collection ∧ axis_close docstring_collection
  ∧ ({["a" := "1"]} : Info) !! "self" = None
  ∧ ∃ s n, call_select docstring_collection {["a" := "1"]} = Ok s
           ∧ call_select_not docstring_collection {["a" := "1"]} = Ok n
           ∧ entries_opt s ++ entries_opt n ≡ₚ entries docstring_collection.
Proof.
  assert (H1 : wf_collection docstring_collection) by exact I.
  assert (H2 : axis_close docstring_collection) by exact I.
  assert (H3 : ({["a" := "1"]} : Info) !! "self" = None) by reflexivity.
  split; [exact H1|]. split; [exact H2|]. split; [exact H3|].
  destruct (proj2 (X10_select_partition docstring_collection {["a" := "1"]}
                     H1 H2) H3)
    as (s & n & Hs & Hn & _ & _ & Hp & _).
  by exists s, n.
Defined.

(** X11.  [+] on two collections and on [None].  Adding [None] returns
    the collection itself.  A right operand whose class is not the left
    operand's class or a subclass of it raises [TypeError], so a generic
    collection accepts a restricted one and not the other way round.
    When the sum returns it has the class of the left operand and the
    lengths add up; for a left operand that is not a
    [GridDOSCollection] it always returns, with the entries of the left
    operand followed by those of the right one. *)
Theorem X11_collection_plus (a b : Collection Info) :
  wf_collection a → wf_collection b →
  DOSCollection___add__ a OpNone = Ok a
  ∧ DOSCollection___add__ a OpOther = Raise TypeError
  ∧ (issubclass (type_of b) (type_of a) = false →
     DOSCollection___add__ a (OpCollection b) = Raise TypeError)
  ∧ (∀ r, DOSCollection___add__ a (OpCollection b) = Ok r →
          type_of r = type_of a
          ∧ Collection___len__ r = Collection___len__ a + Collection___len__ b)
  ∧ (issubclass (type_of b) (type_of a) = true →
     type_of a ≠ GridDOSCollection →
     ∃ r, DOSCollection___add__ a (OpCollection b) = Ok r
          ∧ entries r = entries a ++ entries b).
Proof.
  intros Ha Hb. unfold DOSCollection___add__. simpl. split_and!; try done.
  - by intros ->.
  - intros r. destruct (issubclass (type_of b) (type_of a)); [|done].
    rewrite (iter_entries a Ha), (iter_entries b Hb). simpl.
    intros [Hty Hlen]%Collection_construct_len.
    by rewrite Hty, Hlen, length_app, !length_entries.
  - intros Hsub Hgrid. rewrite Hsub.
    rewrite (iter_entries a Ha), (iter_entries b Hb). simpl.
    destruct a as [da|da|]; [| |done]; simpl in *.
    + eexists. split; [reflexivity|]. done.
    + destruct b as [db|db|]; simpl in *; try done.
      rewrite RawDOSCollection_init_Ok; [eauto|].
      by apply Forall_app.
Qed.

Lemma X11_collection_plus_witness :
  let a := DOSCollection_obj [raw_a1b1] in
  let b := RawDOSCollection_obj [raw_a2b1] in
  wf_collection a ∧ wf_collection b
  ∧ DOSCollection___add__ b (OpCollection a) = Raise TypeError
  ∧ ∃ r, DOSCollection___add__ a (OpCollection b) = Ok r
         ∧ entries r = [raw_a1b1; raw_a2b1].
Proof.
  intros a b.
  assert (Ha : wf_collection a) by exact I.
  assert (Hb : wf_collection b) by (repeat constructor).
  split; [exact Ha|]. split; [exact Hb|]. split.
  - destruct (X11_collection_plus b a Hb Ha) as (_ & _ & H & _).
    by apply H.
  - destruct (X11_collection_plus a b Ha Hb) as (_ & _ & _ & _ & H).
    by apply H.
Defined.

(** X12.  [collection + dos_data] appends: when it returns, the result
    has the class of the collection and one entry more; a generic
    collection takes any object and the new last entry is that object;
    a [RawDOSCollection] takes a [RawDOSData] and raises [TypeError] for
    a [GridDOSData]. *)
Theorem X12_collection_plus_entry (a : Collection Info) (d : DOSData Info) :
  wf_collection a →
  (∀ r, DOSCollection___add__ a (OpDOSData d) = Ok r →
        type_of r = type_of a
        ∧ Collection___len__ r = S (Collection___len__ a))
  ∧ (type_of a = DOSCollection →
     ∃ r, DOSCollection___add__ a (OpDOSData d) = Ok r
          ∧ entries r = entries a ++ [d])
  ∧ (type_of a = RawDOSCollection → class_of d = RawDOSData →
     ∃ r, DOSCollection___add__ a (OpDOSData d) = Ok r
          ∧ entries r = entries a ++ [d])
  ∧ (type_of a = RawDOSCollection → class_of d = GridDOSData →
     DOSCollection___add__ a (OpDOSData d) = Raise TypeError).
Proof.
  intros Ha. unfold DOSCollection___add__. simpl. unfold _add_data.
  rewrite (iter_entries a Ha). simpl. split_and!.
  - intros r [Hty Hlen]%Collection_construct_len.
    rewrite Hty, Hlen, length_app, length_entries by done. simpl.
    split; [done|lia].
  - intros Hty. rewrite Hty. simpl. eauto.
  - intros Hty Hd. rewrite Hty. simpl.
    destruct a as [da|da|]; try done. simpl in *.
    rewrite RawDOSCollection_init_Ok; [eauto|].
    apply Forall_app. split; [done|]. by constructor.
  - intros Hty Hd. rewrite Hty. simpl.
    unfold RawDOSCollection___init__. rewrite iter_list_obj by eauto. simpl.
    destruct (forallb _ (entries a ++ [d])) eqn:Hall; [|done].
    rewrite forallb_forall in Hall.
    specialize (Hall d (in_or_app _ _ _ (or_intror (in_eq d [])))).
    apply bool_decide_eq_true in Hall. congruence.
Qed.

Lemma X12_collection_plus_entry_witness :
  let a := RawDOSCollection_obj [raw_a1b1] in
  wf_collection a
  ∧ DOSCollection___add__ a (OpDOSData grid_01) = Raise TypeError
  ∧ ∃ r, DOSCollection___add__ a (OpDOSData raw_a2b1) = Ok r
         ∧ entries r = [raw_a1b1; raw_a2b1].
Proof.
  intros a.
  assert (Ha : wf_collection a) by (repeat constructor).
  split; [exact Ha|].
  destruct (X12_collection_plus_entry a grid_01 Ha) as (_ & _ & _ & H1).
  destruct (X12_collection_plus_entry a raw_a2b1 Ha) as (_ & _ & H2 & _).
  split; [by apply H1|by apply H2].
Defined.




(* ================================================================== *)
(** ** [from_data] and the constructor of [GridDOSCollection] *)
(* ================================================================== *)

Lemma default_info_replicate (n : nat) :
  map (fun _ => (∅ : Info)) (seq 0 n) = replicate n ∅.
Proof.
  generalize 0. induction n as [|n IH]; intros k; simpl; [done|].
  by rewrite IH.
Qed.

Lemma RawDOSData_init_dict (energies weights : list float) (i : Info) :
  RawDOSData___init__ energies weights (InfoDict i)
  = if decide (length weights ≠ length energies) then Raise ValueError
    else Ok (mkDOSData RawDOSData (energies, weights) i).
Proof. reflexivity. Qed.

Lemma mapM_raw_rows (energies : list float) (weights : list (list float))
    (infos : list Info) :
  Forall (fun row => length row = length energies) weights →
  mapM (fun wi => RawDOSData___init__ energies wi.1 (InfoDict wi.2))
       (zip weights infos)
  = Ok (zip_with (fun row i => mkDOSData RawDOSData (energies, row) i)
          weights infos).
Proof.
  intros Hrows. revert infos.
  induction Hrows as [|row weights Hrow _ IH]; intros [|i infos];
    try done.
  cbn [zip zip_with mapM fst snd]. rewrite RawDOSData_init_dict.
  rewrite decide_False by (intros ?; congruence).
  fold (zip weights infos). rewrite IH. done.
Qed.

Lemma mapM_raw_rows_bad (energies : list float) (weights : list (list float))
    (infos : list Info) :
  length infos = length weights →
  Exists (fun row => length row ≠ length energies) weights →
  mapM (fun wi => RawDOSData___init__ energies wi.1 (InfoDict wi.2))
       (zip weights infos)
  = Raise ValueError.
Proof.
  intros Hlen Hex. revert infos Hlen.
  induction weights as [|row weights IH]; intros [|i infos] Hlen;
    try done.
  - by apply Exists_nil in Hex.
  - cbn [zip zip_with mapM fst snd]. rewrite RawDOSData_init_dict.
    destruct (decide (length row ≠ length energies)) as [Hbad|Hok]; [done|].
    apply Exists_cons in Hex as [Hex|Hex]; [done|].
    fold (zip weights infos). simpl in Hlen.
    rewrite IH by (done || lia). done.
Qed.

(** X14.  [from_data] of [DOSCollection] and [RawDOSCollection]: an info
    sequence of another length than the rows raises [ValueError]; so
    does a row that is not as long as the energies; otherwise the result
    is a collection of the class it is called on with one [RawDOSData]
    per row, in order, all on the given energies, with the row's info or
    an empty info where none is given. *)
Theorem X14_from_data_rows (cls : coll_class) (energies : list float)
    (weights : list (list float)) (info : option (list Info)) :
  cls ≠ GridDOSCollection →
  let infos := default (replicate (length weights) ∅) info in
  (length infos ≠ length weights →
   Collection_from_data cls energies weights info = Raise ValueError)
  ∧ (length infos = length weights →
     Exists (fun row => length row ≠ length energies) weights →
     Collection_from_data cls energies weights info = Raise ValueError)
  ∧ (length infos = length weights →
     Forall (fun row => length row = length energies) weights →
     ∃ c, Collection_from_data cls energies weights info = Ok c
          ∧ type_of c = cls
          ∧ Collection___len__ c = length weights
          ∧ entries c
            = zip_with (fun row i => mkDOSData RawDOSData (energies, row) i)
                weights infos).
Proof.
  intros Hcls infos.
  assert (Hfd : Collection_from_data cls energies weights info
                = DOSCollection_from_data cls energies weights info)
    by by destruct cls.
  rewrite Hfd. unfold DOSCollection_from_data.
  assert (Hcheck : length infos = length weights →
            DOSCollection__check_weights_and_info weights info = Ok infos).
  { unfold DOSCollection__check_weights_and_info, infos.
    destruct info as [i|]; simpl.
    - intros Hlen. by rewrite decide_False by (intros ?; congruence).
    - by rewrite default_info_replicate. }
  split_and!.
  - unfold infos, DOSCollection__check_weights_and_info.
    destruct info as [i|]; simpl.
    + intros Hlen. by rewrite decide_True.
    + rewrite length_replicate. done.
  - intros Hlen Hex. rewrite Hcheck by done. simpl.
    by rewrite mapM_raw_rows_bad.
  - intros Hlen Hrows. rewrite Hcheck by done. simpl.
    rewrite mapM_raw_rows by done. simpl.
    set (l := zip_with _ weights infos).
    assert (Hraw : Forall (fun x => class_of x = RawDOSData) l).
    { unfold l. generalize infos. clear.
      induction weights as [|row weights IH]; intros [|i k]; simpl;
        by constructor. }
    assert (Hl : length l = length weights).
    { unfold l. rewrite length_zip_with. lia. }
    destruct cls; [| |done]; simpl.
    + eexists. by split_and!.
    + rewrite RawDOSCollection_init_Ok by done. eexists. by split_and!.
Qed.

Lemma X14_from_data_rows_witness :
  RawDOSCollection ≠ GridDOSCollection
  ∧ ∃ c, Collection_from_data RawDOSCollection [1%float; 2%float]
           [[3%float; 4%float]; [5%float; 6%float]] None = Ok c
         ∧ Collection___len__ c = 2.
Proof.
  assert (H : RawDOSCollection ≠ GridDOSCollection) by done.
  split; [exact H|].
  destruct (X14_from_data_rows RawDOSCollection [1%float; 2%float]
              [[3%float; 4%float]; [5%float; 6%float]] None H)
    as (_ & _ & Hok).
  destruct Hok as (c & Hc & _ & Hlen & _).
  - reflexivity.
  - by repeat constructor.
  - by exists c.
Defined.

Lemma np_asarray_Ok (rows : list (list float)) (a : ndarray) :
  np_asarray rows = Ok a →
  (rows = [] ∧ a = Array1 [])
  ∨ (∃ r rs, rows = r :: rs ∧ a = Array2 rows
             ∧ Forall (fun r' => length r' = length r) rows).
Proof.
  destruct rows as [|r rs]; simpl.
  - intros [= <-]. by left.
  - destruct (forallb _ rs) eqn:Hall; [|done]. intros [= <-]. right.
    exists r, rs. split_and!; try done. constructor; [done|].
    rewrite Forall_forall. intros r' Hr'%list_elem_of_In.
    rewrite forallb_forall in Hall. by apply (bool_decide_eq_true_1 _), Hall.
Qed.

(** X15.  [GridDOSCollection.from_data]: no row, or rows that are not as
    long as the energies, raise [IndexError], before the length of
    [info] is looked at; what it returns is a well-formed
    [GridDOSCollection] on the given energies with the given rows and
    one info per row (the given ones, or empty ones), and at least one
    row. *)
Theorem X15_GridDOSCollection_from_data (energies : list float)
    (weights : list (list float)) (info : option (list Info)) :
  (weights = [] →
   Collection_from_data GridDOSCollection energies weights info
   = Raise IndexError)
  ∧ (∀ row rest, weights = row :: rest →
       Forall (fun r => length r = length row) rest →
       length row ≠ length energies →
       Collection_from_data GridDOSCollection energies weights info
       = Raise IndexError)
  ∧ (∀ c, Collection_from_data GridDOSCollection energies weights info = Ok c →
       c = GridDOSCollection_obj energies weights
             (default (replicate (length weights) ∅) info)
       ∧ weights ≠ []
       ∧ Collection___len__ c = length weights
       ∧ wf_collection c ∧ axis_close c).
Proof.
  simpl. unfold GridDOSCollection_from_data. split_and!.
  - by intros ->.
  - intros row rest -> Hrect Hlen. simpl.
    rewrite (proj2 (forallb_forall _ _)).
    + simpl. by rewrite decide_True.
    + intros r Hr%list_elem_of_In. apply bool_decide_eq_true.
      rewrite Forall_forall in Hrect. by apply Hrect.
  - intros c H. apply bind_Ok in H as (a & Ha & H).
    apply np_asarray_Ok in Ha as [[-> ->]|(r & rs & -> & -> & Hrect)]; [done|].
    simpl in H. destruct (decide (length r ≠ length energies)) as [|Hlen];
      [done|].
    apply dec_stable in Hlen.
    apply bind_Ok in H as (infos & Hinfos & H).
    apply bind_Ok in H as (first & Hfirst & H).
    apply bind_Ok in H as (dc & Hdc & H).
    pose proof (Collection_construct_axis_close GridDOSCollection _ _ Hdc)
      as Hclose.
    apply GridDOSData_init_Ok in Hfirst as (i0 & _ & Heven & _ & ->).
    unfold GridDOSCollection___init__ in Hdc. simpl in Hdc.
    apply bind_Ok in Hdc as ([rows' infos'] & _ & [= <-]).
    injection H as <-. simpl in Hclose.
    assert (Hi : infos = default (replicate (S (length rs)) ∅) info
                 ∧ length infos = S (length rs)).
    { unfold DOSCollection__check_weights_and_info in Hinfos.
      destruct info as [i|]; simpl in *.
      - case_decide as Hl; [done|]. injection Hinfos as <-.
        done.
      - pose proof (default_info_replicate (length (r :: rs))) as E.
        simpl in E. rewrite E in Hinfos. injection Hinfos as <-.
        split; [done|]. simpl. by rewrite length_replicate. }
    destruct Hi as [-> Hil].
    split_and!; try done. simpl. split_and!; try done.
    eapply Forall_impl; [exact Hrect|]. intros r' Hr'.
    unfold GeneralDOSData_get_energies. simpl in *. congruence.
Qed.

Lemma X15_GridDOSCollection_from_data_witness :
  ∃ c, Collection_from_data GridDOSCollection [0%float; 1%float]
         [[3%float; 4%float]; [5%float; 6%float]] None = Ok c
       ∧ Collection___len__ c = 2
       ∧ wf_collection c.
Proof.
  eexists. split; [reflexivity|].
  destruct (proj2 (proj2 (X15_GridDOSCollection_from_data [0%float; 1%float]
              [[3%float; 4%float]; [5%float; 6%float]] None)) _ eq_refl)
    as (_ & _ & Hlen & Hwf & _).
  split; [exact Hlen|exact Hwf].
Defined.

Lemma GridDOSCollection_init_loop_Ok (e : list float)
    (l : list (DOSData Info)) rows infos :
  Forall len_invariant l →
  GridDOSCollection___init___loop e l = Ok (rows, infos) →
  rows = map GeneralDOSData_get_weights l
  ∧ infos = map info l
  ∧ Forall (fun d => class_of d = GridDOSData
                     ∧ length (GeneralDOSData_get_energies d) = length e
                     ∧ np_allclose (GeneralDOSData_get_energies d) e = Ok true) l.
Proof.
  intros Hinv. revert rows infos.
  induction Hinv as [|d l Hd _ IH]; intros rows infos; simpl.
  - by intros [= <- <-].
  - case_bool_decide as Hcls; simpl; [|done].
    case_bool_decide as Hlen; simpl; [|done].
    intros H. apply bind_Ok in H as (close & Hclose & H).
    destruct close; simpl in H; [|done].
    apply bind_Ok in H as (row & Hrow & H).
    apply bind_Ok in H as ([rows' infos'] & Hl & [= <- <-]).
    apply IH in Hl as (-> & -> & Hall).
    unfold np_assign_row in Hrow. unfold len_invariant in Hd.
    rewrite decide_True in Hrow by congruence. injection Hrow as <-.
    split_and!; try done. by constructor.
Qed.

(** X16.  What [GridDOSCollection(l)] returns for valid objects: every
    object of [l] is a [GridDOSData] whose energies are as many as and
    close to those of the first one, and the entries read back from the
    collection are the objects of [l], in order, with their weights and
    infos, each on the energy axis of the first object (also where its
    own axis differed within the tolerance). *)
Theorem X16_GridDOSCollection_entries (l : list (DOSData Info))
    (c : Collection Info) :
  Forall valid_DOSData l →
  GridDOSCollection___init__ l = Ok c →
  ∃ first rest,
    l = first :: rest
    ∧ Forall (fun d =>
                class_of d = GridDOSData
                ∧ length (GeneralDOSData_get_energies d)
                  = length (GeneralDOSData_get_energies first)
                ∧ np_allclose (GeneralDOSData_get_energies d)
                    (GeneralDOSData_get_energies first) = Ok true) l
    ∧ entries c
      = map (fun d => mkDOSData GridDOSData
                        (GeneralDOSData_get_energies first,
                         GeneralDOSData_get_weights d) (info d)) l
    ∧ Collection___len__ c = length l
    ∧ wf_collection c ∧ axis_close c.
Proof.
  intros Hvalid Hc.
  destruct (Collection_construct_wf GridDOSCollection l c Hvalid Hc) as [Hwf _].
  pose proof (Collection_construct_axis_close GridDOSCollection l c Hc) as Hcl.
  destruct (Collection_construct_len GridDOSCollection l c Hc) as [_ Hlen].
  unfold GridDOSCollection___init__ in Hc.
  apply bind_Ok in Hc as (first & Hfirst & Hc).
  apply bind_Ok in Hc as ([rows infos] & Hloop & [= <-]).
  change 0%Z with (Z.of_nat 0) in Hfirst. rewrite py_index_nat in Hfirst.
  destruct l as [|d rest]; [done|]. simpl in Hfirst. injection Hfirst as ->.
  assert (Hinv : Forall len_invariant (first :: rest)).
  { eapply Forall_impl; [exact Hvalid|]. by intros ? [? _]. }
  apply GridDOSCollection_init_loop_Ok in Hloop as (-> & -> & Hall); [|done].
  exists first, rest. split_and!; try done.
  unfold entries. generalize (GeneralDOSData_get_energies first) as e.
  generalize (first :: rest) as k. clear.
  induction k as [|x k IH]; intros e; simpl; [done|]. by rewrite IH.
Qed.

Lemma X16_GridDOSCollection_entries_witness :
  Forall valid_DOSData [grid_01; grid_01_b]
  ∧ ∃ c, GridDOSCollection___init__ [grid_01; grid_01_b] = Ok c
         ∧ Collection___len__ c = 2.
Proof.
  assert (H1 : Forall valid_DOSData [grid_01; grid_01_b]).
  { repeat constructor; intros _; reflexivity. }
  split; [exact H1|]. eexists. split; [reflexivity|].
  destruct (X16_GridDOSCollection_entries [grid_01; grid_01_b] _ H1 eq_refl)
    as (first & rest & _ & _ & _ & Hlen & _).
  exact Hlen.
Defined.

(* ================================================================== *)
(** ** Sums over a [RawDOSCollection] *)
(* ================================================================== *)

Lemma RawDOSCollection_init_inv {I} (l : list (DOSData I)) (c : Collection I) :
  RawDOSCollection___init__ l = Ok c →
  c = RawDOSCollection_obj l ∧ Forall (fun x => class_of x = RawDOSData) l.
Proof.
  unfold RawDOSCollection___init__. rewrite iter_list_obj by eauto. simpl.
  destruct (forallb _ l) eqn:Hall; [|done]. intros [= <-]. split; [done|].
  rewrite Forall_forall. intros x Hx%list_elem_of_In.
  rewrite forallb_forall in Hall. by apply (bool_decide_eq_true_1 _), Hall.
Qed.

Lemma Forall_raw_len_invariant (l : list (DOSData Info)) :
  Forall (fun x => class_of x = RawDOSData) l →
  Forall len_invariant l →
  Forall (fun x => class_of x = RawDOSData ∧ len_invariant x) l.
Proof.
  intros Hraw Hinv. rewrite Forall_forall in Hraw, Hinv |- *.
  intros x Hx. split; [by apply Hraw|by apply Hinv].
Qed.

(** X17.  [sum_all] of a non-empty [RawDOSCollection] always returns: a
    [RawDOSData] whose energies and weights are those of the entries,
    concatenated in the order of the collection, and whose info holds
    exactly the key/value pairs that the infos of all entries hold. *)
Theorem X17_sum_all_of_raw_collection (l : list (DOSData Info))
    (c : Collection Info) :
  l ≠ [] →
  Forall len_invariant l →
  RawDOSCollection___init__ l = Ok c →
  ∃ s, DOSCollection_sum_all c = Ok s
       ∧ class_of s = RawDOSData
       ∧ GeneralDOSData_get_energies s
         = concat (map GeneralDOSData_get_energies l)
       ∧ GeneralDOSData_get_weights s
         = concat (map GeneralDOSData_get_weights l)
       ∧ ∀ k v, info s !! k = Some v ↔ Forall (fun x => info x !! k = Some v) l.
Proof.
  intros Hne Hinv [-> Hraw]%RawDOSCollection_init_inv.
  apply sum_all_RawDOSCollection; [done|].
  by apply Forall_raw_len_invariant.
Qed.

Lemma X17_sum_all_of_raw_collection_witness :
  ∃ s, DOSCollection_sum_all (RawDOSCollection_obj [raw_a1b1; raw_a2b1]) = Ok s
       ∧ class_of s = RawDOSData
       ∧ info s !! "b" = Some "1".
Proof.
  assert (Hne : [raw_a1b1; raw_a2b1] ≠ []) by done.
  assert (Hinv : Forall len_invariant [raw_a1b1; raw_a2b1])
    by (repeat constructor).
  destruct (X17_sum_all_of_raw_collection [raw_a1b1; raw_a2b1] _ Hne Hinv eq_refl)
    as (s & Hs & Hcls & _ & _ & Hinfo).
  exists s. split_and!; try done. apply Hinfo. by repeat constructor.
Defined.

(** X18.  [sum_by] on a [RawDOSCollection], for keys other than
    ['self'], never raises: it returns a [RawDOSCollection] with one
    [RawDOSData] per distinct sub-mapping of the infos restricted to the
    keys. *)
Theorem X18_sum_by_of_raw_collection (l : list (DOSData Info))
    (c : Collection Info) (info_keys : list string) :
  Forall len_invariant l →
  RawDOSCollection___init__ l = Ok c →
  "self" ∉ info_keys →
  ∃ out,
    DOSCollection_sum_by c info_keys = Ok (RawDOSCollection_obj out)
    ∧ length out = length (unique_combos_of info_keys l)
    ∧ Forall (fun s => class_of s = RawDOSData) out.
Proof.
  intros Hinv [-> Hraw]%RawDOSCollection_init_inv Hself.
  pose proof (Forall_raw_len_invariant l Hraw Hinv) as Hd.
  destruct (sum_by_RawDOSCollection l info_keys Hd Hself) as (out & Hout & Hall).
  exists out. split_and!; [done|by apply Forall2_length in Hall|].
  clear Hout. induction Hall as [|combo s combos out Hs _ IH]; constructor;
    [|done].
  assert (Hsel : Forall (fun x => class_of x = RawDOSData ∧ len_invariant x)
                   (selected_by l combo)).
  { unfold selected_by. rewrite Forall_forall in Hd |- *.
    intros y [_ Hy]%list_elem_of_filter. by apply Hd. }
  destruct (decide (selected_by l combo = [])) as [E|Hne].
  - rewrite E in Hs. done.
  - destruct (sum_all_RawDOSCollection _ Hne Hsel) as (s' & Hs' & Hcls & _).
    congruence.
Qed.

Lemma X18_sum_by_of_raw_collection_witness :
  ∃ out,
    DOSCollection_sum_by (RawDOSCollection_obj [raw_a1b1; raw_a2b1; raw_a1]) ["a"]
    = Ok (RawDOSCollection_obj out)
    ∧ length out = 2.
Proof.
  assert (Hinv : Forall len_invariant [raw_a1b1; raw_a2b1; raw_a1])
    by (repeat constructor).
  assert (Hself : "self" ∉ ["a"]).
  { intros H. apply list_elem_of_In in H. simpl in H. intuition congruence. }
  destruct (X18_sum_by_of_raw_collection [raw_a1b1; raw_a2b1; raw_a1] _ ["a"]
              Hinv eq_refl Hself) as (out & Hout & Hlen & _).
  exists out. split; [exact Hout|]. rewrite Hlen. reflexivity.
Defined.

(* ================================================================== *)
(** ** [sample_grid] of a collection *)
(* ================================================================== *)

(** X19.  [DOSCollection.sample_grid]: on an empty collection a missing
    [xmin] or [xmax] raises [ValueError] (the minimum of no energies),
    before anything is sampled.  What it returns is the grid of [npts]
    energies with the samples of the entries on that grid: for a
    collection with entries a 2-D array with one row of [npts] values
    per entry, row [i] being what entry [i] samples on the grid; for an
    empty collection the empty 1-D array. *)
Theorem X19_collection_sample_grid (np_exp : float -> float)
    (self : Collection Info) (npts : Z) (xmin xmax : option float)
    (padding width : float) (smearing : string) :
  wf_collection self →
  (entries self = [] → xmin = None ∨ xmax = None →
   outcome (DOSCollection_sample_grid np_exp self npts xmin xmax padding width
              smearing) = Raise ValueError)
  ∧ (∀ energies sampled,
       outcome (DOSCollection_sample_grid np_exp self npts xmin xmax padding
                  width smearing) = Ok (energies, sampled) →
       (0 ≤ npts)%Z ∧ length energies = Z.to_nat npts
       ∧ (entries self = [] → sampled = Array1 [])
       ∧ (entries self ≠ [] →
          ∃ rows, sampled = Array2 rows
                  ∧ length rows = Collection___len__ self
                  ∧ Forall (fun row => length row = Z.to_nat npts) rows
                  ∧ Forall2 (fun d row =>
                               outcome (_sample np_exp d energies width smearing)
                               = Ok row) (entries self) rows)).
Proof.
  intros Hwf. unfold DOSCollection_sample_grid. split.
  - intros Hnil Hnone. rewrite !outcome_bind. simpl.
    rewrite (iter_entries self Hwf), Hnil. simpl.
    destruct xmin as [lo|]; simpl; [|done].
    destruct Hnone as [Hx|Hx]; [done|]. by rewrite Hx.
  - intros energies sampled. rewrite !outcome_bind. simpl. intros H.
    apply bind_Ok in H as (lo & _ & H).
    rewrite outcome_bind in H. apply bind_Ok in H as (hi & _ & H).
    rewrite outcome_bind in H. apply bind_Ok in H as (grid & Hgrid & H).
    rewrite outcome_bind in H. apply bind_Ok in H as (s & Hs & H).
    simpl in Hgrid, H. injection H as <- <-.
    apply np_linspace_length in Hgrid as [Hnpts Hlen].
    rewrite DOSCollection_sample_outcome in Hs by done.
    apply bind_Ok in Hs as (rows & Hrows & Harr).
    apply mapM_result_Ok in Hrows.
    pose proof (Forall2_length _ _ _ Hrows) as Hrl.
    split_and!; try done.
    + intros Hnil. rewrite Hnil in Hrl. destruct rows; [|done].
      simpl in Harr. by injection Harr as <-.
    + intros Hne.
      apply np_asarray_Ok in Harr as [[-> ->]|(r & rs & _ & -> & _)].
      { destruct (entries self); done. }
      exists rows. split_and!; try done.
      * by rewrite <- Hrl, length_entries.
      * rewrite <- Hlen. clear -Hrows.
        induction Hrows as [|d row ds rows Hrow _ IH]; constructor; [|done].
        by apply sample_length in Hrow.
Qed.

Lemma X19_collection_sample_grid_witness :
  wf_collection (DOSCollection_obj ([] : list (DOSData Info)))
  ∧ outcome (DOSCollection_sample_grid (fun x => x) (DOSCollection_obj []) 3
               None None 3%float 0.125%float "Gauss") = Raise ValueError.
Proof.
  assert (Hwf : wf_collection (DOSCollection_obj ([] : list (DOSData Info))))
    by done.
  split; [exact Hwf|].
  apply (X19_collection_sample_grid (fun x => x) (DOSCollection_obj []) 3
           None None 3%float 0.125%float "Gauss" Hwf); [done|by left].
Defined.

(* ================================================================== *)
(** ** Indexing a collection *)
(* ================================================================== *)

Lemma py_index_out {A} (l : list A) (i : Z) :
  (i < - Z.of_nat (length l) ∨ Z.of_nat (length l) ≤ i)%Z →
  py_index l i = Raise IndexError.
Proof.
  intros Hi. unfold py_index.
  destruct (Z.ltb_spec i 0) as [Hneg|Hpos].
  - destruct (Z.ltb_spec (i + Z.of_nat (length l)) 0) as [?|?]; [done|lia].
  - destruct (Z.ltb_spec i 0) as [?|_]; [lia|].
    rewrite (proj2 (lookup_ge_None l (Z.to_nat i))); [done|lia].
Qed.

Lemma py_index_neg {A} (l : list A) (i : Z) :
  (- Z.of_nat (length l) ≤ i < 0)%Z →
  py_index l i = py_index l (i + Z.of_nat (length l)).
Proof.
  intros Hi. unfold py_index.
  destruct (Z.ltb_spec i 0) as [_|?]; [|lia].
  destruct (Z.ltb_spec (i + Z.of_nat (length l)) 0) as [?|_]; [lia|].
  destruct (Z.ltb_spec (i + Z.of_nat (length l)) 0) as [?|_]; [lia|]. done.
Qed.

(** X20.  [collection[i]] for an integer [i] and a collection of [n]
    entries: an index below [-n] or from [n] on raises [IndexError]; a
    negative index from [-n] on counts from the end, [collection[i]]
    being [collection[i + n]]; an index from [0] to [n - 1] returns the
    entry at that position. *)
Theorem X20_getitem_index_range (self : Collection Info) (i : Z) :
  wf_collection self →
  let n := Z.of_nat (Collection___len__ self) in
  ((i < - n ∨ n ≤ i)%Z → Collection___getitem__ self i = Raise IndexError)
  ∧ ((- n ≤ i < 0)%Z →
     Collection___getitem__ self i = Collection___getitem__ self (i + n))
  ∧ ((0 ≤ i < n)%Z →
     ∃ d, Collection___getitem__ self i = Ok d
          ∧ entries self !! Z.to_nat i = Some d).
Proof.
  intros Hwf. cbv zeta. split_and!.
  - intros Hi. destruct self as [d|d|e w inf]; simpl in *;
      try by apply py_index_out.
    unfold GridDOSCollection___getitem__. by rewrite (py_index_out w i Hi).
  - intros Hi. destruct self as [d|d|e w inf]; simpl in *;
      try by apply py_index_neg.
    destruct Hwf as (_ & _ & Hinf).
    unfold GridDOSCollection___getitem__.
    rewrite (py_index_neg w) by done.
    rewrite (py_index_neg inf) by (rewrite Hinf; done).
    by rewrite Hinf.
  - intros Hi.
    replace (Collection___getitem__ self i)
      with (Collection___getitem__ self (Z.of_nat (Z.to_nat i)))
      by (f_equal; lia).
    rewrite getitem_entries by done.
    destruct (entries self !! Z.to_nat i) as [d|] eqn:E; [by exists d|].
    apply lookup_ge_None in E. rewrite length_entries in E by done. lia.
Qed.

Lemma X20_getitem_index_range_witness :
  wf_collection docstring_collection
  ∧ Collection___getitem__ docstring_collection (-1)
    = Collection___getitem__ docstring_collection 2
  ∧ Collection___getitem__ docstring_collection 3 = Raise IndexError.
Proof.
  assert (Hwf : wf_collection docstring_collection) by done.
  split; [exact Hwf|]. split.
  - destruct (X20_getitem_index_range docstring_collection (-1) Hwf)
      as (_ & Hneg & _).
    apply Hneg. simpl. lia.
  - destruct (X20_getitem_index_range docstring_collection 3 Hwf)
      as (Hout & _).
    apply Hout. simpl. lia.
Defined.

(* ================================================================== *)
(** ** [sum_by] without keys *)
(* ================================================================== *)

Lemma combo_of_no_keys (i : Info) : combo_of [] i = [].
Proof.
  unfold combo_of, restricted_info.
  replace (filter (fun kv : string * string => kv.1 ∈ []) i) with (∅ : Info).
  - by rewrite map_to_list_empty.
  - symmetry. apply map_empty. intros k.
    apply map_lookup_filter_None. right. intros v _ H.
    by apply not_elem_of_nil in H.
Qed.

Lemma unique_combos_no_keys (items : list (DOSData Info)) :
  items ≠ [] → unique_combos_of [] items = [[]].
Proof.
  intros Hne.
  assert (Hall : ∀ c, c ∈ unique_combos_of [] items → c = []).
  { intros c (d & _ & <-)%elem_of_unique_combos. apply combo_of_no_keys. }
  assert (Hin : [] ∈ unique_combos_of [] items).
  { destruct items as [|d items]; [done|].
    apply elem_of_unique_combos. exists d. split; [left|].
    apply combo_of_no_keys. }
  assert (Hnd : NoDup (unique_combos_of [] items)).
  { unfold unique_combos_of. rewrite py_sorted_Permutation.
    apply NoDup_remove_dups. }
  destruct (unique_combos_of [] items) as [|a [|b k]].
  - by apply not_elem_of_nil in Hin.
  - by rewrite (Hall a) by left.
  - apply NoDup_cons in Hnd as [Hnd _]. exfalso. apply Hnd.
    rewrite (Hall a) by left. rewrite <- (Hall b) by (right; left). left.
Qed.

Lemma selected_by_nil (items : list (DOSData Info)) :
  selected_by items [] = items.
Proof.
  unfold selected_by. induction items as [|d items IH]; [done|].
  rewrite filter_cons_True; [by rewrite IH|].
  unfold query_issubset. simpl. apply map_Forall_empty.
Qed.

(** X21.  [sum_by()] without keys puts every entry in one group: on a
    collection with entries it does what [sum_all()] does and wraps the
    sum in a collection of the class of [self] (an exception of the sum
    or of the constructor propagates). *)
Theorem X21_sum_by_no_keys (self : Collection Info) :
  wf_collection self → axis_close self →
  entries self ≠ [] →
  DOSCollection_sum_by self []
  = (s ← DOSCollection_sum_all self; Collection_construct (type_of self) [s]).
Proof.
  intros Hwf Hclose Hne.
  rewrite (sum_by_selected self [] (entries self));
    [|by apply iter_entries|apply not_elem_of_nil].
  rewrite unique_combos_no_keys by done.
  cbn [mapM]. rewrite selected_by_nil.
  destruct (construct_from_entries self (entries self) Hwf Hclose)
    as (c & Hc & Hentries & Hwfc & _).
  { unfold entries_of. by rewrite Forall_forall. }
  { done. }
  unfold sum_members. destruct (entries self) as [|x l] eqn:E; [done|].
  rewrite Hc. simpl.
  rewrite (sum_all_entries c Hwfc), (sum_all_entries self Hwf), Hentries, E.
  by destruct (match l with [] => _ | _ => _ end).
Qed.

Lemma X21_sum_by_no_keys_witness :
  wf_collection docstring_collection ∧ axis_close docstring_collection
  ∧ DOSCollection_sum_by docstring_collection []
    = (s ← DOSCollection_sum_all docstring_collection;
       Collection_construct DOSCollection [s]).
Proof.
  assert (Hwf : wf_collection docstring_collection) by done.
  assert (Hcl : axis_close docstring_collection) by done.
  assert (Hne : entries docstring_collection ≠ []) by done.
  split; [exact Hwf|]. split; [exact Hcl|].
  exact (X21_sum_by_no_keys docstring_collection Hwf Hcl Hne).
Defined.

(* ================================================================== *)
(** ** The order of the tests in the constructors and in [_almost_equals] *)
(* ================================================================== *)

Lemma evenly_spaced_returns (energies : list float) :
  energies ≠ [] → ∃ b, evenly_spaced energies = Ok b.
Proof.
  intros Hne. unfold evenly_spaced.
  destruct energies as [|e0 rest] eqn:E; [done|]. rewrite <- E.
  assert (H0 : py_index energies 0 = Ok e0).
  { rewrite E. change 0%Z with (Z.of_nat 0). by rewrite py_index_nat. }
  assert (H1 : ∃ e1, py_index energies (-1) = Ok e1).
  { rewrite py_index_neg by (rewrite E; simpl; lia).
    replace (-1 + Z.of_nat (length energies))%Z with (Z.of_nat (length rest))
      by (rewrite E; simpl; lia).
    rewrite py_index_nat.
    destruct (energies !! length rest) as [e1|] eqn:El; [by exists e1|].
    apply lookup_ge_None in El. rewrite E in El. simpl in El. lia. }
  destruct H1 as (e1 & H1). rewrite H0, H1. simpl.
  destruct (np_linspace e0 e1 (Z.of_nat (length energies))) as [grid|err] eqn:Hg.
  - apply np_linspace_length in Hg as [_ Hlen]. simpl.
    unfold np_allclose. rewrite np_broadcast_same_length by lia.
    simpl. eauto.
  - unfold np_linspace in Hg.
    destruct (Z.ltb_spec (Z.of_nat (length energies)) 0); [lia|done].
Qed.

(** X22.  The order of the tests in the constructors.  [RawDOSData]
    looks at [info] first: an [info] that is neither a dict nor [None]
    raises [TypeError] whatever the data.  [GridDOSData] looks at the
    data first: no energies raise [IndexError] (the test reads
    [energies[0]]), and with energies a weights sequence of another
    length raises [ValueError], in both cases whatever [info] is; the
    [TypeError] of a bad [info] shows only for an evenly spaced grid
    with as many weights. *)
Theorem X22_constructor_error_order (energies weights : list float)
    (info : info_arg Info) :
  RawDOSData___init__ energies weights (InfoOther : info_arg Info)
  = Raise TypeError
  ∧ GridDOSData___init__ [] weights info = Raise IndexError
  ∧ (energies ≠ [] → length weights ≠ length energies →
     GridDOSData___init__ energies weights info = Raise ValueError)
  ∧ (evenly_spaced energies = Ok false →
     GridDOSData___init__ energies weights info = Raise ValueError)
  ∧ (evenly_spaced energies = Ok true → length weights = length energies →
     GridDOSData___init__ energies weights (InfoOther : info_arg Info)
     = Raise TypeError).
Proof.
  split_and!.
  - done.
  - unfold GridDOSData___init__. by rewrite evenly_spaced_nil.
  - intros Hne Hlen. unfold GridDOSData___init__.
    destruct (evenly_spaced_returns energies Hne) as (b & ->). simpl.
    destruct b; simpl; [|done]. by rewrite decide_True.
  - intros Hev. unfold GridDOSData___init__. by rewrite Hev.
  - intros Hev Hlen. unfold GridDOSData___init__. rewrite Hev. simpl.
    by rewrite decide_False by (intros ?; congruence).
Qed.





Lemma X22_constructor_error_order_witness :
  GridDOSData___init__ [0%float; 1%float] [2%float] (InfoOther : info_arg Info)
  = Raise ValueError.
Proof.
  destruct (X22_constructor_error_order [0%float; 1%float] [2%float] InfoOther)
    as (_ & _ & Hlen & _).
  apply Hlen; simpl; congruence.
Defined.
